(** * Calabi-Yau cross-section renderer ([calabi_yau.py])

    A shallow embedding of the script: the mesh of the 25 sheets of
    [z1^5 + z2^5 = 1], the projection to three real coordinates, the bounding
    cube, the wireframe handed to matplotlib and the image file written.

    Numbers are the script's numbers: Python [int]s are [Z], Python and NumPy
    floats are IEEE-754 binary64 values (Rocq's primitive [float], whose
    operations round to nearest even as the hardware does), complex numbers
    are pairs of them.  The elementary functions the script takes from NumPy
    and the C library ([cos], [sin], complex [exp], [cosh], [sinh] and complex
    power) are not code of the script: the model takes them as a record
    [Libm], and every theorem below holds for every such record.  A reference
    implementation [ref_libm] is used where a concrete run is evaluated. *)

From stdpp Require Import base gmap strings list pretty.
From Stdlib Require Import ZArith Floats Bool Lia.

(** ** Python values and exceptions *)

(** The arguments of [plot_calabi_yau] are Python numbers: batch mode passes
    [int]s, the command line passes [float]s ([argparse] with [type=float]). *)
Inductive pynum :=
  | PyInt (n : Z)
  | PyFloat (x : float).

Inductive pyerr :=
  | TypeError
  | ValueError
  | OverflowError
  | ZeroDivisionError
  | IndexError
  | FileNotFoundError.

Inductive outcome (A : Type) :=
  | Ok (a : A)
  | Raise (e : pyerr).
Arguments Ok {A} a.
Arguments Raise {A} e.

(** ** binary64 *)

(** Conversion of an integer to the nearest binary64 value (ties to even), as
    [float(n)] and NumPy's integer-to-double casts do. *)
Definition f64_of_Z (n : Z) : float :=
  SF2Prim (binary_normalize prec emax n 0 false).

(** The integer part of a finite binary64 value, rounding toward zero; [None]
    for an infinity or a NaN. *)
Definition f64_trunc (x : float) : option Z :=
  match Prim2SF x with
  | S754_zero _ => Some 0%Z
  | S754_finite s m e =>
      let a := match e with
               | Zneg p => Z.shiftr (Zpos m) (Zpos p)
               | _ => Z.shiftl (Zpos m) e
               end in
      Some (if s then Z.opp a else a)
  | S754_infinity _ | S754_nan => None
  end.

(** Two binary64 values denote the same number: they are the same value, or
    they are the two zeros [+0] and [-0]. *)
Definition f64_same (x y : float) : Prop :=
  x = y ∨ (is_zero x = true ∧ is_zero y = true).

(** [float(n)] of a Python [int]: [OverflowError] when [n] is out of range. *)
Definition py_float (n : Z) : outcome float :=
  let f := f64_of_Z n in
  if is_infinity f then Raise OverflowError else Ok f.

(** [int(x)]: the identity on an [int]; a [float] is truncated toward zero,
    [ValueError] on a NaN and [OverflowError] on an infinity. *)
Definition py_int (x : pynum) : outcome Z :=
  match x with
  | PyInt n => Ok n
  | PyFloat f =>
      match f64_trunc f with
      | Some z => Ok z
      | None => if is_nan f then Raise ValueError else Raise OverflowError
      end
  end.

(** The value formatted by an [f] format specification ([{x:>6.1f}]): an
    [int] is converted with [float(n)] first. *)
Definition py_format_f (x : pynum) : outcome float :=
  match x with
  | PyInt n => py_float n
  | PyFloat f => Ok f
  end.

(** [range(start, stop, step)] for a positive [step]. *)
Definition py_range (start stop step : Z) : list Z :=
  (λ i, start + i * step)%Z <$> seqZ 0 ((stop - start + step - 1) `div` step).

(** ** Complex numbers *)

Record complex := Complex { re : float; im : float }.

Definition of_real (x : float) : complex := Complex x 0.

(** Complex product, as CPython's [_Py_c_prod] and NumPy's complex
    [multiply] loop both compute it. *)
Definition c_prod (a b : complex) : complex :=
  Complex (re a * re b - im a * im b) (re a * im b + im a * re b).

Definition c_sum (a b : complex) : complex :=
  Complex (re a + re b) (im a + im b).

Definition f64_abs_c (x : float) : float :=
  if (x <? 0)%float then (- x)%float else x.

(** Complex quotient of two Python [complex] values (CPython's
    [_Py_c_quot]). *)
Definition c_quot (a b : complex) : outcome complex :=
  let abs_breal := f64_abs_c (re b) in
  let abs_bimag := f64_abs_c (im b) in
  if (abs_bimag <=? abs_breal)%float then
    if (abs_breal =? 0)%float then Raise ZeroDivisionError
    else
      let ratio := (im b / re b)%float in
      let denom := (re b + im b * ratio)%float in
      Ok (Complex ((re a + im a * ratio) / denom) ((im a - re a * ratio) / denom))
  else if (abs_breal <=? abs_bimag)%float then
    let ratio := (re b / im b)%float in
    let denom := (re b * ratio + im b)%float in
    Ok (Complex ((re a * ratio + im a) / denom) ((im a * ratio - re a) / denom))
  else Ok (Complex nan nan).

(** ** NumPy *)

Abbreviation array1 := (list float).
Abbreviation array2 := (list (list float)).
Abbreviation carray2 := (list (list complex)).

(** [np.pi]. *)
Definition np_pi : float := 0x1.921fb54442d18p+1.

(** The elementary functions of NumPy and the C library that the script
    calls. *)
Record Libm := {
  np_cos : float → float;
  np_sin : float → float;
  np_exp : complex → complex;
  np_cosh : complex → complex;
  np_sinh : complex → complex;
  np_power : complex → complex → complex;
}.

(** [np.radians(x)]: [x * (pi / 180)] in binary64.  A Python [int] is cast to
    a double first; one outside the range of NumPy's 64-bit integers is an
    object for which the ufunc has no loop. *)
Definition np_radians (x : pynum) : outcome float :=
  match x with
  | PyInt n =>
      if ((- 2 ^ 63 <=? n) && (n <? 2 ^ 64))%Z
      then Ok (f64_of_Z n * (np_pi / 180))%float
      else Raise TypeError
  | PyFloat f => Ok (f * (np_pi / 180))%float
  end.

(** [np.linspace(start, stop, num)] with the default [endpoint=True]:
    [arange(num) * step + start], the last sample then overwritten with
    [stop]. *)
Definition np_linspace (start stop : float) (num : nat) : array1 :=
  let div := (Z.of_nat num - 1)%Z in
  let delta := (stop - start)%float in
  let y := f64_of_Z <$> seqZ 0 (Z.of_nat num) in
  let y :=
    if (0 <? div)%Z then
      let step := (delta / f64_of_Z div)%float in
      if (step =? 0)%float
      then (λ v, v / f64_of_Z div * delta)%float <$> y
      else (λ v, v * step)%float <$> y
    else (λ v, v * delta)%float <$> y in
  let y := (λ v, v + start)%float <$> y in
  if (1 <? Z.of_nat num)%Z then <[pred (length y) := stop]> y else y.

(** [np.meshgrid(x, y)] with the default [indexing='xy']: both results have
    one row per element of [y] and one column per element of [x]. *)
Definition np_meshgrid (x y : array1) : array2 * array2 :=
  ((λ _, x) <$> y, (λ yi, (λ _, yi) <$> x) <$> y).

(** [a.max()] and [a.min()] of a flat array: the reduction keeps the
    accumulator when it compares greater (smaller) or equal, or is a NaN. *)
Definition np_maximum (a b : float) : float :=
  if (b <=? a)%float || is_nan a then a else b.

Definition np_minimum (a b : float) : float :=
  if (a <=? b)%float || is_nan a then a else b.

Definition np_max (a : array1) : float :=
  match a with
  | [] => nan
  | x :: r => foldl np_maximum x r
  end.

Definition np_min (a : array1) : float :=
  match a with
  | [] => nan
  | x :: r => foldl np_minimum x r
  end.

(** Elementwise operations on 2-D arrays of one shape. *)
Definition map2d {A B} (f : A → B) (a : list (list A)) : list (list B) :=
  (λ row : list A, f <$> row) <$> a.

Definition zip2d {A B C} (f : A → B → C) (a : list (list A)) (b : list (list B))
  : list (list C) :=
  zip_with (zip_with f) a b.

(** [a.flatten()] of a 2-D array (row-major) and [np.concatenate]. *)
Definition np_flatten (a : array2) : array1 := concat a.

Definition np_concatenate (l : list array1) : array1 := concat l.

(** [a[:, i]]: column [i] of a 2-D array, [IndexError] out of range. *)
Definition np_column (a : array2) (i : nat) : outcome array1 :=
  match mapM (λ row : list float, row !! i) a with
  | Some c => Ok c
  | None => Raise IndexError
  end.

(** [a[i, :]]: row [i]. *)
Definition np_row (a : array2) (i : nat) : outcome array1 :=
  match a !! i with
  | Some r => Ok r
  | None => Raise IndexError
  end.

(** ** matplotlib and the outside world *)

(** One call of [ax.plot(xs, ys, zs, color="white", alpha=0.15,
    linewidth=0.6)]: a polyline through the given points (the style is the
    same for every line). *)
Record Line3D := { line_x : array1; line_y : array1; line_z : array1 }.

(** The two text blocks placed with [fig.text]: the fixed equation block and
    the parameter block, which shows the three inputs with one decimal. *)
Inductive FigText :=
  | EquationText
  | ParamText (alpha_deg azim elev : float).

(** A figure with its single 3-D axes, as far as the script sets it up. *)
Record Figure := {
  fig_axis_off : bool;
  fig_texts : list FigText;
  fig_lines : list Line3D;
  fig_xlim : option (float * float);
  fig_ylim : option (float * float);
  fig_zlim : option (float * float);
  fig_box_aspect : option (Z * Z * Z);
  fig_view : option (pynum * pynum);
}.

(** [plt.figure(figsize=(12, 12))] followed by
    [fig.add_subplot(111, projection="3d")]. *)
Definition new_figure : Figure :=
  {| fig_axis_off := false; fig_texts := []; fig_lines := [];
     fig_xlim := None; fig_ylim := None; fig_zlim := None;
     fig_box_aspect := None; fig_view := None |}.

(** What [plt.savefig(filename, dpi=100)] writes: the figure rendered at the
    given resolution. *)
Record Png := { png_figure : Figure; png_dpi : Z }.

(** A line printed on standard output. *)
Inductive Message :=
  | Generating (elev azim alpha_deg : pynum).

(** The state outside the function: the files below the working directory,
    whether the directory [images] exists, standard output, and pyplot's
    global state (the style in force and the open figures, the current one
    first). *)
Record World := {
  w_files : gmap string Png;
  w_images_dir : bool;
  w_stdout : list Message;
  w_style : option string;
  w_figures : list Figure;
}.

(** Computations that read and change the world and may raise. *)
Definition Py (A : Type) : Type := World → outcome A * World.

Definition py_ret {A} (a : A) : Py A := λ w, (Ok a, w).

Definition py_bind {A B} (m : Py A) (k : A → Py B) : Py B :=
  λ w, match m w with
       | (Ok a, w') => k a w'
       | (Raise e, w') => (Raise e, w')
       end.

Definition py_lift {A} (o : outcome A) : Py A := λ w, (o, w).

#[global] Instance py_mret : MRet Py := @py_ret.
#[global] Instance py_mbind : MBind Py := λ A B k m, py_bind m k.

(** A [for] loop that threads an accumulator through its body. *)
Fixpoint py_for {A S} (l : list A) (body : A → S → Py S) (s : S) : Py S :=
  match l with
  | [] => py_ret s
  | x :: r => s' ← body x s; py_for r body s'
  end.

Definition set_figures (fs : list Figure) (w : World) : World :=
  {| w_files := w_files w; w_images_dir := w_images_dir w;
     w_stdout := w_stdout w; w_style := w_style w; w_figures := fs |}.

(** A method call on the figure (or its axes) created by this invocation,
    which is pyplot's current figure throughout. *)
Definition on_figure (f : Figure → Figure) : Py unit :=
  λ w, (Ok (), match w_figures w with
               | [] => w
               | fig :: r => set_figures (f fig :: r) w
               end).

Definition plt_style_use (name : string) : Py unit :=
  λ w, (Ok (), {| w_files := w_files w; w_images_dir := w_images_dir w;
                  w_stdout := w_stdout w; w_style := Some name;
                  w_figures := w_figures w |}).

Definition plt_figure : Py unit :=
  λ w, (Ok (), set_figures (new_figure :: w_figures w) w).

Definition ax_set_axis_off : Py unit :=
  on_figure (λ f,
    {| fig_axis_off := true; fig_texts := fig_texts f; fig_lines := fig_lines f;
       fig_xlim := fig_xlim f; fig_ylim := fig_ylim f; fig_zlim := fig_zlim f;
       fig_box_aspect := fig_box_aspect f; fig_view := fig_view f |}).

Definition fig_text (t : FigText) : Py unit :=
  on_figure (λ f,
    {| fig_axis_off := fig_axis_off f; fig_texts := fig_texts f ++ [t];
       fig_lines := fig_lines f;
       fig_xlim := fig_xlim f; fig_ylim := fig_ylim f; fig_zlim := fig_zlim f;
       fig_box_aspect := fig_box_aspect f; fig_view := fig_view f |}).

Definition add_lines (ls : list Line3D) (f : Figure) : Figure :=
  {| fig_axis_off := fig_axis_off f; fig_texts := fig_texts f;
     fig_lines := fig_lines f ++ ls;
     fig_xlim := fig_xlim f; fig_ylim := fig_ylim f; fig_zlim := fig_zlim f;
     fig_box_aspect := fig_box_aspect f; fig_view := fig_view f |}.

Definition ax_plot (xs ys zs : array1) : Py unit :=
  on_figure (add_lines [{| line_x := xs; line_y := ys; line_z := zs |}]).

Definition ax_set_xlim (lo hi : float) : Py unit :=
  on_figure (λ f,
    {| fig_axis_off := fig_axis_off f; fig_texts := fig_texts f;
       fig_lines := fig_lines f;
       fig_xlim := Some (lo, hi); fig_ylim := fig_ylim f; fig_zlim := fig_zlim f;
       fig_box_aspect := fig_box_aspect f; fig_view := fig_view f |}).

Definition ax_set_ylim (lo hi : float) : Py unit :=
  on_figure (λ f,
    {| fig_axis_off := fig_axis_off f; fig_texts := fig_texts f;
       fig_lines := fig_lines f;
       fig_xlim := fig_xlim f; fig_ylim := Some (lo, hi); fig_zlim := fig_zlim f;
       fig_box_aspect := fig_box_aspect f; fig_view := fig_view f |}).

Definition ax_set_zlim (lo hi : float) : Py unit :=
  on_figure (λ f,
    {| fig_axis_off := fig_axis_off f; fig_texts := fig_texts f;
       fig_lines := fig_lines f;
       fig_xlim := fig_xlim f; fig_ylim := fig_ylim f; fig_zlim := Some (lo, hi);
       fig_box_aspect := fig_box_aspect f; fig_view := fig_view f |}).

Definition ax_set_box_aspect (a : Z * Z * Z) : Py unit :=
  on_figure (λ f,
    {| fig_axis_off := fig_axis_off f; fig_texts := fig_texts f;
       fig_lines := fig_lines f;
       fig_xlim := fig_xlim f; fig_ylim := fig_ylim f; fig_zlim := fig_zlim f;
       fig_box_aspect := Some a; fig_view := fig_view f |}).

Definition ax_view_init (elev azim : pynum) : Py unit :=
  on_figure (λ f,
    {| fig_axis_off := fig_axis_off f; fig_texts := fig_texts f;
       fig_lines := fig_lines f;
       fig_xlim := fig_xlim f; fig_ylim := fig_ylim f; fig_zlim := fig_zlim f;
       fig_box_aspect := fig_box_aspect f; fig_view := Some (elev, azim) |}).

Definition py_print (m : Message) : Py unit :=
  λ w, (Ok (), {| w_files := w_files w; w_images_dir := w_images_dir w;
                  w_stdout := w_stdout w ++ [m]; w_style := w_style w;
                  w_figures := w_figures w |}).

(** [plt.savefig(filename, dpi=dpi)] for a file name inside [images/]: the
    current figure is written to that path, replacing whatever was there;
    [FileNotFoundError] when the directory does not exist. *)
Definition plt_savefig (filename : string) (dpi : Z) : Py unit :=
  λ w, match w_figures w with
       | fig :: _ =>
           if w_images_dir w then
             (Ok (), {| w_files := <[filename := {| png_figure := fig; png_dpi := dpi |}]> (w_files w);
                        w_images_dir := w_images_dir w; w_stdout := w_stdout w;
                        w_style := w_style w; w_figures := w_figures w |})
           else (Raise FileNotFoundError, w)
       | [] => (Ok (), w)
       end.

(** [plt.close()]: closes the current figure. *)
Definition plt_close : Py unit :=
  λ w, (Ok (), set_figures (tail (w_figures w)) w).

(** ** The script *)

(** The constants and the parameter grid of [plot_calabi_yau] (they depend on
    no argument). *)
Definition n : Z := 5.
Definition xi_steps : nat := 25.
Definition theta_steps : nat := 25.

Definition xi : array1 := np_linspace (-1) 1 xi_steps.
Definition theta : array1 := np_linspace 0 (np_pi / 2) theta_steps.
Definition Xi : array2 := (np_meshgrid xi theta).1.
Definition Theta : array2 := (np_meshgrid xi theta).2.

(** [w = Xi + 1j * Theta]: both operands are cast to complex, the product
    and the sum are NumPy's elementwise complex loops. *)
Definition w : carray2 :=
  zip2d c_sum
    (map2d of_real Xi)
    (map2d (λ t, c_prod (Complex 0 1) (of_real t)) Theta).

(** [2j * np.pi * k / n], evaluated left to right on Python [complex]
    values (the real operands are converted to [complex]). *)
Definition phase_arg (k : Z) : outcome complex :=
  c_quot
    (c_prod (c_prod (Complex 0 2) (of_real np_pi)) (of_real (f64_of_Z k)))
    (of_real (f64_of_Z n)).

(** The exponent [2 / n], a Python [float]. *)
Definition exponent : float := (f64_of_Z 2 / f64_of_Z n)%float.

(** The lists [all_x], [all_y], [all_z]. *)
Record Sheets := { all_x : list array2; all_y : list array2; all_z : list array2 }.

Definition no_sheets : Sheets := {| all_x := []; all_y := []; all_z := [] |}.

Definition append_sheet (X Y Z : array2) (s : Sheets) : Sheets :=
  {| all_x := all_x s ++ [X]; all_y := all_y s ++ [Y]; all_z := all_z s ++ [Z] |}.

(** The local variables of [plot_calabi_yau] when it returns.  (The Python
    function returns [None]; the model returns its locals so that statements
    can refer to them.) *)
Record Locals := {
  l_alpha : float;
  l_sheets : Sheets;
  l_max_range : float;
  l_mid_x : float;
  l_mid_y : float;
  l_mid_z : float;
  l_filename : string;
}.

(** Command-line arguments, as [argparse] returns them. *)
Record Args := {
  args_all : bool;
  args_elev : float;
  args_azim : float;
  args_alpha : float;
}.

Section Script.
Context (lm : Libm).

(** [np.exp(2j * np.pi * k / n)]. *)
Definition phase (k : Z) : outcome complex :=
  match phase_arg k with
  | Ok a => Ok (np_exp lm a)
  | Raise e => Raise e
  end.

(** [phase1 * (np.cosh(w)) ** (2 / n)] and [phase2 * (np.sinh(w)) ** (2 / n)]. *)
Definition z1_of (phase1 : complex) : carray2 :=
  map2d (λ c, c_prod phase1 (np_power lm (np_cosh lm c) (of_real exponent))) w.

Definition z2_of (phase2 : complex) : carray2 :=
  map2d (λ c, c_prod phase2 (np_power lm (np_sinh lm c) (of_real exponent))) w.

(** [np.cos(alpha) * z1.imag + np.sin(alpha) * z2.imag]. *)
Definition project (alpha : float) (z1 z2 : carray2) : array2 :=
  zip2d (λ a b, np_cos lm alpha * im a + np_sin lm alpha * im b)%float z1 z2.

(** The wireframe of one sheet: one line per column, then one per row. *)
Definition plot_columns (X Y Z : array2) : Py unit :=
  py_for (seq 0 (length xi))
    (λ i _, cx ← py_lift (np_column X i);
            cy ← py_lift (np_column Y i);
            cz ← py_lift (np_column Z i);
            ax_plot cx cy cz) ().

Definition plot_rows (X Y Z : array2) : Py unit :=
  py_for (seq 0 (length theta))
    (λ i _, rx ← py_lift (np_row X i);
            ry ← py_lift (np_row Y i);
            rz ← py_lift (np_row Z i);
            ax_plot rx ry rz) ().

(** The body of the two nested loops, for one pair [(k1, k2)]. *)
Definition sheet_body (alpha : float) (k1 k2 : Z) (acc : Sheets) : Py Sheets :=
  phase1 ← py_lift (phase k1);
  phase2 ← py_lift (phase k2);
  let z1 := z1_of phase1 in
  let z2 := z2_of phase2 in
  let X := map2d re z1 in
  let Y := map2d re z2 in
  let Z := project alpha z1 z2 in
  plot_columns X Y Z;;
  plot_rows X Y Z;;
  mret (append_sheet X Y Z acc).

Definition plot_calabi_yau (elev azim alpha_deg : pynum) : Py Locals :=
  plt_style_use "dark_background";;
  plt_figure;;
  ax_set_axis_off;;
  fig_text EquationText;;
  t_alpha ← py_lift (py_format_f alpha_deg);
  t_azim ← py_lift (py_format_f azim);
  t_elev ← py_lift (py_format_f elev);
  fig_text (ParamText t_alpha t_azim t_elev);;
  alpha ← py_lift (np_radians alpha_deg);
  py_print (Generating elev azim alpha_deg);;
  sheets ← py_for (py_range 0 n 1)
              (λ k1 acc, py_for (py_range 0 n 1) (sheet_body alpha k1) acc)
              no_sheets;
  let full_x := np_concatenate (np_flatten <$> all_x sheets) in
  let full_y := np_concatenate (np_flatten <$> all_y sheets) in
  let full_z := np_concatenate (np_flatten <$> all_z sheets) in
  let max_range :=
    (np_max [ np_max full_x - np_min full_x;
              np_max full_y - np_min full_y;
              np_max full_z - np_min full_z ] / 2)%float in
  let mid_x := ((np_max full_x + np_min full_x) * 0.5)%float in
  let mid_y := ((np_max full_y + np_min full_y) * 0.5)%float in
  let mid_z := ((np_max full_z + np_min full_z) * 0.5)%float in
  ax_set_xlim (mid_x - max_range) (mid_x + max_range);;
  ax_set_ylim (mid_y - max_range) (mid_y + max_range);;
  ax_set_zlim (mid_z - max_range) (mid_z + max_range);;
  ax_set_box_aspect (1, 1, 1)%Z;;
  ax_view_init elev azim;;
  e ← py_lift (py_int elev);
  a ← py_lift (py_int azim);
  p ← py_lift (py_int alpha_deg);
  let filename :=
    "images/calabi_yau_elev" +:+ pretty e +:+ "_azim" +:+ pretty a
      +:+ "_alpha" +:+ pretty p +:+ ".png" in
  plt_savefig filename 100;;
  plt_close;;
  mret {| l_alpha := alpha; l_sheets := sheets; l_max_range := max_range;
          l_mid_x := mid_x; l_mid_y := mid_y; l_mid_z := mid_z;
          l_filename := filename |}.

(** The [__main__] block; the model returns the locals of every call of
    [plot_calabi_yau], in order. *)
Definition main (args : Args) : Py (list Locals) :=
  if args_all args then
    py_for (py_range 0 360 15)
      (λ azim acc,
         py_for (py_range 0 120 30)
           (λ alpha acc,
              l ← plot_calabi_yau (PyInt 32) (PyInt azim) (PyInt alpha);
              mret (acc ++ [l]))
           acc)
      []
  else
    l ← plot_calabi_yau (PyFloat (args_elev args)) (PyFloat (args_azim args))
           (PyFloat (args_alpha args));
    mret [l].
End Script.

(** ** A reference implementation of the elementary functions

    Plain double-precision implementations (argument reduction and a
    truncated series, evaluated in binary64) of the functions a [Libm]
    provides.  They agree with a C library up to a few units in the last
    place and return its values at the special arguments the statements
    below use ([cos 0 = 1], [sin 0 = 0], [exp 0 = 1], [0 ** p = 0]).  No
    theorem about the script depends on this implementation: it only
    serves to evaluate concrete runs. *)
Module RefLibm.
Local Open Scope float_scope.

(** [c0 + x * (c1 + x * (c2 + ...))]. *)
Definition horner (cs : list float) (x : float) : float :=
  foldr (λ c acc, c + x * acc) 0 cs.

(** The integer nearest to a finite [x]. *)
Definition nearest (x : float) : Z :=
  default 0%Z (f64_trunc (if x <? 0 then x - 0.5 else x + 0.5)).

(** [1/k!] for [k = from, from + step, ...], with alternating sign when
    [alt] is set. *)
Definition factorial (k : nat) : Z :=
  foldr Z.mul 1%Z (seqZ 1 (Z.of_nat k)).

Fixpoint inv_factorials (count : nat) (k : nat) (step : nat) (alt neg : bool)
  : list float :=
  match count with
  | O => []
  | S c =>
      let v := 1 / f64_of_Z (factorial k) in
      (if neg then - v else v)
        :: inv_factorials c (k + step) step alt (if alt then negb neg else neg)
  end.

(** [1/k] for [k = 1, 3, 5, ...], with alternating sign when [alt] is set. *)
Fixpoint inv_odds (count : nat) (k : nat) (alt neg : bool) : list float :=
  match count with
  | O => []
  | S c =>
      let v := 1 / f64_of_Z (Z.of_nat k) in
      (if neg then - v else v)
        :: inv_odds c (k + 2) alt (if alt then negb neg else neg)
  end.

Definition exp_coeffs : list float :=
  Eval vm_compute in inv_factorials 16 0 1 false false.
Definition sin_coeffs : list float :=
  Eval vm_compute in inv_factorials 10 1 2 true false.
Definition cos_coeffs : list float :=
  Eval vm_compute in inv_factorials 10 0 2 true false.
Definition sinh_coeffs : list float :=
  Eval vm_compute in inv_factorials 9 1 2 false false.
Definition atanh_coeffs : list float :=
  Eval vm_compute in inv_odds 14 1 false false.
Definition atan_coeffs : list float :=
  Eval vm_compute in inv_odds 14 1 true false.

Definition ln2_hi : float := 0x1.62e42fee00000p-1.
Definition ln2_lo : float := 0x1.a39ef35793c76p-33.
Definition inv_ln2 : float := 0x1.71547652b82fep+0.

Definition f_exp (x : float) : float :=
  if is_nan x then nan
  else if 710 <? x then infinity
  else if x <? -746 then 0
  else
    let k := nearest (x * inv_ln2) in
    let kf := f64_of_Z k in
    let r := x - kf * ln2_hi - kf * ln2_lo in
    Z.ldexp (horner exp_coeffs r) k.

(** [pi/2] in three 33-bit pieces and a tail. *)
Definition pio2_1 : float := 0x1.921fb54400000p+0.
Definition pio2_2 : float := 0x1.0b4611a600000p-34.
Definition pio2_3 : float := 0x1.3198a2e000000p-69.
Definition pio2_3t : float := 0x1.b839a252049c1p-104.
Definition inv_pio2 : float := 0x1.45f306dc9c883p-1.

(** [x = k * pi/2 + r] with [|r| <= pi/4] (for [x] of moderate size). *)
Definition rem_pio2 (x : float) : Z * float :=
  let k := nearest (x * inv_pio2) in
  let kf := f64_of_Z k in
  (k, x - kf * pio2_1 - kf * pio2_2 - kf * pio2_3 - kf * pio2_3t).

Definition sin_kernel (r : float) : float := r * horner sin_coeffs (r * r).
Definition cos_kernel (r : float) : float := horner cos_coeffs (r * r).

Definition f_sin (x : float) : float :=
  if is_finite x then
    let '(k, r) := rem_pio2 x in
    match (k mod 4)%Z with
    | 0%Z => sin_kernel r
    | 1%Z => cos_kernel r
    | 2%Z => - sin_kernel r
    | _ => - cos_kernel r
    end
  else nan.

Definition f_cos (x : float) : float :=
  if is_finite x then
    let '(k, r) := rem_pio2 x in
    match (k mod 4)%Z with
    | 0%Z => cos_kernel r
    | 1%Z => - sin_kernel r
    | 2%Z => - cos_kernel r
    | _ => sin_kernel r
    end
  else nan.

Definition f_cosh (x : float) : float :=
  let e := f_exp (abs x) in (e + 1 / e) / 2.

Definition f_sinh (x : float) : float :=
  if abs x <? 0.5 then x * horner sinh_coeffs (x * x)
  else let e := f_exp x in (e - 1 / e) / 2.

Definition sqrt_half : float := 0x1.6a09e667f3bcdp-1.

Definition f_log (x : float) : float :=
  if is_nan x then nan
  else if x <? 0 then nan
  else if x =? 0 then neg_infinity
  else if is_infinity x then infinity
  else
    let '(m, e) := Z.frexp x in
    let '(m, e) := if m <? sqrt_half then (2 * m, (e - 1)%Z) else (m, e) in
    let s := (m - 1) / (m + 1) in
    let ef := f64_of_Z e in
    ef * ln2_hi + (2 * s * horner atanh_coeffs (s * s) + ef * ln2_lo).

Definition halve_angle (t : float) : float := t / (1 + sqrt (1 + t * t)).

Definition f_atan (t : float) : float :=
  if is_nan t then nan
  else if 1 <? abs t then
    let u := halve_angle (halve_angle (1 / t)) in
    let a := 4 * (u * horner atan_coeffs (u * u)) in
    (if t <? 0 then - (np_pi / 2) else np_pi / 2) - a
  else
    let u := halve_angle (halve_angle t) in
    4 * (u * horner atan_coeffs (u * u)).

Definition f_atan2 (y x : float) : float :=
  if is_nan x || is_nan y then nan
  else if 0 <? x then f_atan (y / x)
  else if x <? 0 then
    (if get_sign y then f_atan (y / x) - np_pi else f_atan (y / x) + np_pi)
  else if y =? 0 then
    (if get_sign x then (if get_sign y then - np_pi else np_pi) else y)
  else if get_sign y then - (np_pi / 2) else np_pi / 2.

Definition c_exp (z : complex) : complex :=
  let e := f_exp (re z) in
  Complex (e * f_cos (im z)) (e * f_sin (im z)).

Definition c_cosh (z : complex) : complex :=
  Complex (f_cosh (re z) * f_cos (im z)) (f_sinh (re z) * f_sin (im z)).

Definition c_sinh (z : complex) : complex :=
  Complex (f_sinh (re z) * f_cos (im z)) (f_cosh (re z) * f_sin (im z)).

Definition c_log (z : complex) : complex :=
  Complex (f_log (sqrt (re z * re z + im z * im z))) (f_atan2 (im z) (re z)).

(** Complex power as NumPy's [npy_cpow] arranges it: [a ** 0 = 1],
    [0 ** b = 0] for a positive real [b], otherwise [exp (b * log a)]
    (its shortcut for small integer exponents is left out). *)
Definition c_pow (a b : complex) : complex :=
  if (re b =? 0) && (im b =? 0) then Complex 1 0
  else if (re a =? 0) && (im a =? 0) then
    (if (0 <? re b) && (im b =? 0) then Complex 0 0 else Complex nan nan)
  else c_exp (c_prod b (c_log a)).
End RefLibm.

Definition ref_libm : Libm :=
  {| np_cos := RefLibm.f_cos; np_sin := RefLibm.f_sin;
     np_exp := RefLibm.c_exp; np_cosh := RefLibm.c_cosh;
     np_sinh := RefLibm.c_sinh; np_power := RefLibm.c_pow |}.

(** ** Vocabulary of the statements *)


(** The same relation on the values [Prim2SF] gives. *)
Inductive sf_same : spec_float → spec_float → Prop :=
  | sf_same_refl a : sf_same a a
  | sf_same_zero s s' : sf_same (S754_zero s) (S754_zero s').


(** The position of a binary64 value in the order of the extended reals: its
    sign class, then exponent and mantissa (negated for negative values);
    [None] for a NaN. *)
Definition sf_rank (x : spec_float) : option (Z * Z * Z) :=
  match x with
  | S754_nan => None
  | S754_infinity true => Some (-2, 0, 0)%Z
  | S754_infinity false => Some (2, 0, 0)%Z
  | S754_zero _ => Some (0, 0, 0)%Z
  | S754_finite false m e => Some (1, e, Zpos m)%Z
  | S754_finite true m e => Some (-1, - e, Zneg m)%Z
  end.

(** The lexicographic order of the ranks. *)
Definition lex_le (r r' : Z * Z * Z) : Prop :=
  (r.1.1 < r'.1.1 ∨
   (r.1.1 = r'.1.1 ∧ (r.1.2 < r'.1.2 ∨ (r.1.2 = r'.1.2 ∧ r.2 ≤ r'.2))))%Z.

(** Entry [(i, j)] of a two-dimensional array. *)
Definition at2 {A} (a : list (list A)) (i j : nat) : option A :=
  a !! i ≫= λ row, row !! j.

(** Entry [(i, j)] of the sheet [(k1, k2)] in the list the loops have
    appended to: [k1] is the outer index, [k2] the inner one. *)
Definition sheet_at (l : list array2) (k1 k2 i j : nat) : option float :=
  l !! (5 * k1 + k2) ≫= λ a, at2 a i j.

(** The point [xi[j] + i theta[i]] of the parameter grid. *)
Definition grid_point (i j : nat) : option complex :=
  t ← theta !! i; x ← xi !! j; Some (Complex x t).

(** The argument [2 pi k / n] of the phase, as the script rounds it. *)
Definition phase_angle (k : Z) : float :=
  (2 * np_pi * f64_of_Z k / f64_of_Z n)%float.

(** An array of [rows] rows of [cols] entries each. *)
Definition rect (rows cols : nat) {A} (a : list (list A)) : Prop :=
  length a = rows ∧ Forall (λ r, length r = cols) a.

(** Column [i] of an array whose rows are long enough. *)
Definition column {A} (d : A) (a : list (list A)) (i : nat) : list A :=
  (λ row, default d (row !! i)) <$> a.

(** Lines added to the current figure. *)
Definition draw (ls : list Line3D) (wd : World) : World :=
  match w_figures wd with
  | [] => wd
  | fig :: r => set_figures (add_lines ls fig :: r) wd
  end.

(** The lines [ax.plot] draws for one sheet: its 25 columns, then its 25
    rows. *)
Definition column_lines (X Y Z : array2) : list Line3D :=
  (λ i, {| line_x := column 0%float X i; line_y := column 0%float Y i;
           line_z := column 0%float Z i |}) <$> seq 0 (length xi).

Definition row_lines (X Y Z : array2) : list Line3D :=
  (λ i, {| line_x := default [] (X !! i); line_y := default [] (Y !! i);
           line_z := default [] (Z !! i) |}) <$> seq 0 (length theta).

(** The index pairs, in the order of the two loops. *)
Definition pairs : list (Z * Z) :=
  k1 ← py_range 0 n 1; k2 ← py_range 0 n 1; [(k1, k2)].

(** All values of one coordinate, over all sheets. *)
Definition full (l : list array2) : array1 := np_concatenate (np_flatten <$> l).

(** Range and midpoint of one coordinate, and the common half-width. *)
Definition axis_range (l : list array2) : float :=
  (np_max (full l) - np_min (full l))%float.

Definition axis_mid (l : list array2) : float :=
  ((np_max (full l) + np_min (full l)) * 0.5)%float.

Definition half_range (s : Sheets) : float :=
  (np_max [axis_range (all_x s); axis_range (all_y s); axis_range (all_z s)] / 2)%float.

(** The path of the image. *)
Definition filename_of (e a p : Z) : string :=
  "images/calabi_yau_elev" +:+ pretty e +:+ "_azim" +:+ pretty a
    +:+ "_alpha" +:+ pretty p +:+ ".png".

Section PureDefs.
Context (lm : Libm).

(** The phase of index [k]. *)
Definition root (k : Z) : complex := np_exp lm (Complex 0 (phase_angle k)).

(** The three coordinate arrays of a sheet and the lines drawn for it. *)
Definition sheet_X (k1 : Z) : array2 := map2d re (z1_of lm (root k1)).
Definition sheet_Y (k2 : Z) : array2 := map2d re (z2_of lm (root k2)).
Definition sheet_Z (alpha : float) (k1 k2 : Z) : array2 :=
  project lm alpha (z1_of lm (root k1)) (z2_of lm (root k2)).

Definition sheet_lines (alpha : float) (k1 k2 : Z) : list Line3D :=
  column_lines (sheet_X k1) (sheet_Y k2) (sheet_Z alpha k1 k2)
    ++ row_lines (sheet_X k1) (sheet_Y k2) (sheet_Z alpha k1 k2).

(** The sheets, the lines, the figure and the local variables a call ends
    with. *)
Definition sheets_of (alpha : float) : Sheets :=
  {| all_x := (λ p, sheet_X p.1) <$> pairs;
     all_y := (λ p, sheet_Y p.2) <$> pairs;
     all_z := (λ p, sheet_Z alpha p.1 p.2) <$> pairs |}.

Definition lines_of (alpha : float) : list Line3D :=
  k1 ← py_range 0 n 1; k2 ← py_range 0 n 1; sheet_lines alpha k1 k2.

Definition figure_of (elev azim : pynum) (t_alpha t_azim t_elev alpha : float)
  : Figure :=
  let s := sheets_of alpha in
  let h := half_range s in
  {| fig_axis_off := true;
     fig_texts := [EquationText; ParamText t_alpha t_azim t_elev];
     fig_lines := lines_of alpha;
     fig_xlim := Some (axis_mid (all_x s) - h, axis_mid (all_x s) + h)%float;
     fig_ylim := Some (axis_mid (all_y s) - h, axis_mid (all_y s) + h)%float;
     fig_zlim := Some (axis_mid (all_z s) - h, axis_mid (all_z s) + h)%float;
     fig_box_aspect := Some (1, 1, 1)%Z;
     fig_view := Some (elev, azim) |}.

Definition locals_of (alpha : float) (e a p : Z) : Locals :=
  let s := sheets_of alpha in
  {| l_alpha := alpha; l_sheets := s; l_max_range := half_range s;
     l_mid_x := axis_mid (all_x s); l_mid_y := axis_mid (all_y s);
     l_mid_z := axis_mid (all_z s); l_filename := filename_of e a p |}.

End PureDefs.

(** The outside world after a call that returns. *)
Definition world_after (wd : World) (elev azim alpha_deg : pynum)
    (fn : string) (fig : Figure) : World :=
  {| w_files := <[fn := {| png_figure := fig; png_dpi := 100 |}]> (w_files wd);
     w_images_dir := w_images_dir wd;
     w_stdout := w_stdout wd ++ [Generating elev azim alpha_deg];
     w_style := Some "dark_background";
     w_figures := w_figures wd |}.

(** Outcomes compose as exceptions do. *)
#[global] Instance outcome_ret : MRet outcome := @Ok.
#[global] Instance outcome_bind : MBind outcome :=
  λ A B k o, match o with Ok a => k a | Raise e => Raise e end.

Section PointsDefs.
Context (lm : Libm).

(** The values of [z1] and [z2] of sheet [(k1, k2)] at the grid point [c]. *)
Definition z1_point (k1 : nat) (c : complex) : complex :=
  c_prod (root lm (Z.of_nat k1)) (np_power lm (np_cosh lm c) (of_real exponent)).

Definition z2_point (k2 : nat) (c : complex) : complex :=
  c_prod (root lm (Z.of_nat k2)) (np_power lm (np_sinh lm c) (of_real exponent)).

Definition z_point (alpha : float) (k1 k2 : nat) (c : complex) : float :=
  (np_cos lm alpha * im (z1_point k1 c) + np_sin lm alpha * im (z2_point k2 c))%float.

End PointsDefs.

(** A fresh working directory that has [images/]. *)
Definition world0 : World :=
  {| w_files := ∅; w_images_dir := true; w_stdout := []; w_style := None;
     w_figures := [] |}.

(** The grid point of row 3 and column 4. *)
Definition sample_point : complex :=
  Complex (f64_of_Z 4 * (2 / 24) + -1)%float (f64_of_Z 3 * (np_pi / 2 / 24) + 0)%float.





(** The exact value of a finite float, in units of [2^-1074]. *)
Definition f64_units (x : float) : Z :=
  match Prim2SF x with
  | S754_finite s m e => (if s then -1 else 1) * Z.pos m * 2 ^ (e + 1074)
  | _ => 0
  end.

(** The exact width of an interval of axis limits. *)
Definition width (lim : float * float) : Z := f64_units lim.2 - f64_units lim.1.

(** The three intervals of axis limits of a figure have exactly the width of
    the largest coordinate range of the sheets. *)
Definition limits_cubic (fig : Figure) (s : Sheets) : bool :=
  match fig_xlim fig, fig_ylim fig, fig_zlim fig with
  | Some lx, Some ly, Some lz =>
      let M := f64_units (np_max [axis_range (all_x s); axis_range (all_y s);
                                  axis_range (all_z s)]) in
      bool_decide (width lx = M) && bool_decide (width ly = M)
      && bool_decide (width lz = M)
  | _, _, _ => false
  end.

(** The same, of the image a call has written. *)
Definition run_cubic (r : outcome Locals * World) : bool :=
  match r with
  | (Ok l, wd') =>
      match w_files wd' !! l_filename l with
      | Some png => limits_cubic (png_figure png) (l_sheets l)
      | None => false
      end
  | _ => false
  end.


(** The parameter combinations of batch mode, in the order of the loops. *)
Definition batch : list (Z * Z) :=
  azim ← py_range 0 360 15; alpha ← py_range 0 120 30; [(azim, alpha)].

(** File name, local variables, figure and effect of one call of batch
    mode. *)
Definition batch_file (c : Z * Z) : string := filename_of 32 c.1 c.2.

Section BatchDefs.
Context (lm : Libm).

Definition batch_locals (c : Z * Z) : Locals :=
  locals_of lm (f64_of_Z c.2 * (np_pi / 180)) 32 c.1 c.2.

Definition batch_figure (c : Z * Z) : Figure :=
  figure_of lm (PyInt 32) (PyInt c.1) (f64_of_Z c.2) (f64_of_Z c.1) (f64_of_Z 32)
    (f64_of_Z c.2 * (np_pi / 180)).

Definition batch_call (wd : World) (c : Z * Z) : World :=
  world_after wd (PyInt 32) (PyInt c.1) (PyInt c.2) (batch_file c) (batch_figure c).

End BatchDefs.

(** ** Vocabulary of the further properties *)

(** The figure as it stands when the parameter text cannot be formatted, or
    when [np.radians] raises: the axes are off and only text has been
    placed. *)
Definition figure_begun (texts : list FigText) : Figure :=
  {| fig_axis_off := true; fig_texts := EquationText :: texts; fig_lines := [];
     fig_xlim := None; fig_ylim := None; fig_zlim := None;
     fig_box_aspect := None; fig_view := None |}.

(** The outside world after a call that raised, given what standard output
    holds by then: no file is written, and the figure the call created is
    still open. *)
Definition world_raised (wd : World) (out : list Message) (fig : Figure) : World :=
  {| w_files := w_files wd; w_images_dir := w_images_dir wd;
     w_stdout := out; w_style := Some "dark_background";
     w_figures := fig :: w_figures wd |}.

(** What a call does, case by case, in the order in which the function can
    raise. *)
Definition call_result (lm : Libm) (elev azim alpha_deg : pynum) (wd : World)
  : outcome Locals * World :=
  match py_format_f alpha_deg with
  | Raise err => (Raise err, world_raised wd (w_stdout wd) (figure_begun []))
  | Ok ta =>
  match py_format_f azim with
  | Raise err => (Raise err, world_raised wd (w_stdout wd) (figure_begun []))
  | Ok tz =>
  match py_format_f elev with
  | Raise err => (Raise err, world_raised wd (w_stdout wd) (figure_begun []))
  | Ok te =>
  match np_radians alpha_deg with
  | Raise err => (Raise err, world_raised wd (w_stdout wd) (figure_begun [ParamText ta tz te]))
  | Ok alpha =>
  let fig := figure_of lm elev azim ta tz te alpha in
  let raised := world_raised wd (w_stdout wd ++ [Generating elev azim alpha_deg]) fig in
  match py_int elev with
  | Raise err => (Raise err, raised)
  | Ok e =>
  match py_int azim with
  | Raise err => (Raise err, raised)
  | Ok a =>
  match py_int alpha_deg with
  | Raise err => (Raise err, raised)
  | Ok p =>
  if w_images_dir wd
  then (Ok (locals_of lm alpha e a p),
        world_after wd elev azim alpha_deg (filename_of e a p) fig)
  else (Raise FileNotFoundError, raised)
  end end end end end end end.

Section Characters.
Import Stdlib.Strings.Ascii.

(** The character [c] does not occur in [s]. *)
Fixpoint absent (c : ascii) (s : string) : Prop :=
  match s with
  | EmptyString => True
  | String a r => a ≠ c ∧ absent c r
  end.

End Characters.

(** A working directory without [images/]. *)
Definition world_bare : World :=
  {| w_files := ∅; w_images_dir := false; w_stdout := []; w_style := None;
     w_figures := [] |}.

(** The directory after the sample calls with alpha 45 and alpha 90. *)
Definition world_45 : World :=
  world_after world0 (PyInt 32) (PyInt 45) (PyInt 45) (filename_of 32 45 45)
    (figure_of ref_libm (PyInt 32) (PyInt 45) 45 45 32 (45 * (np_pi / 180))).

Definition world_90 : World :=
  world_after world0 (PyInt 32) (PyInt 45) (PyInt 90) (filename_of 32 45 90)
    (figure_of ref_libm (PyInt 32) (PyInt 45) 90 45 32 (90 * (np_pi / 180))).

(** * Properties *)

(** ** binary64: equality up to the sign of zero, exact products *)

Section Binary64.

Local Open Scope float_scope.

Lemma Prim2SF_zero : Prim2SF 0 = S754_zero false.
Proof. reflexivity. Qed.

Lemma Prim2SF_one : Prim2SF 1 = S754_finite false 4503599627370496 (-52).
Proof. reflexivity. Qed.

Lemma is_zero_spec x : is_zero x = true ↔ ∃ s, Prim2SF x = S754_zero s.
Proof.
  unfold is_zero. rewrite FloatAxioms.eqb_spec. change (Prim2SF zero) with (S754_zero false).
  destruct (Prim2SF x) as [s|s| |s m e]; simpl.
  - split; eauto.
  - split; [destruct s; discriminate | intros [? ?]; discriminate].
  - split; [discriminate | intros [? ?]; discriminate].
  - split; [destruct s; discriminate | intros [? ?]; discriminate].
Qed.

Lemma SFeqb_refl_finite s m e :
  SFeqb (S754_finite s m e) (S754_finite s m e) = true.
Proof.
  unfold SFeqb, SFcompare.
  rewrite Z.compare_refl, Pos.compare_cont_refl. by destruct s.
Qed.

Lemma is_nan_spec x : is_nan x = true ↔ Prim2SF x = S754_nan.
Proof.
  unfold is_nan. rewrite FloatAxioms.eqb_spec.
  destruct (Prim2SF x) as [s|s| |s m e].
  - simpl. split; discriminate.
  - destruct s; simpl; split; discriminate.
  - simpl. done.
  - rewrite SFeqb_refl_finite. simpl. split; discriminate.
Qed.

Lemma is_finite_spec x :
  is_finite x = true ↔
  (∃ s, Prim2SF x = S754_zero s) ∨ (∃ s m e, Prim2SF x = S754_finite s m e).
Proof.
  unfold is_finite, is_nan, is_infinity.
  rewrite !FloatAxioms.eqb_spec, abs_spec.
  change (Prim2SF infinity) with (S754_infinity false).
  destruct (Prim2SF x) as [s|s| |s m e].
  - simpl. split; eauto.
  - destruct s; simpl; (split; [discriminate | intros [[? ?]|(?&?&?&?)]; discriminate]).
  - simpl. split; [discriminate | intros [[? ?]|(?&?&?&?)]; discriminate].
  - rewrite SFeqb_refl_finite. simpl. split; eauto 6.
Qed.

Lemma f64_same_spec x y : f64_same x y ↔ sf_same (Prim2SF x) (Prim2SF y).
Proof.
  unfold f64_same. rewrite !is_zero_spec. split.
  - intros [->|[[s Hs] [s' Hs']]]; [constructor|]. rewrite Hs, Hs'. constructor.
  - intros H. inversion H as [a Ha|s s' Hs Hs'].
    + left. by apply Prim2SF_inj.
    + right. eauto.
Qed.



Lemma f64_same_trans x y z : f64_same x y → f64_same y z → f64_same x z.
Proof.
  intros [->|[Hx Hy]] [->|[Hy' Hz]]; try (by left); try (by right).
Qed.

Lemma digits2_pos_iter_xO k m :
  Zpos (digits2_pos (Pos.iter xO m k)) = (Zpos (digits2_pos m) + Zpos k)%Z.
Proof.
  induction k as [|k IH] using Pos.peano_ind.
  - simpl. lia.
  - rewrite Pos.iter_succ. simpl digits2_pos. rewrite Pos2Z.inj_succ, IH. lia.
Qed.

(** Multiplying by [1] rounds nothing: the product's mantissa is the
    operand's, shifted left by 52 bits and shifted back. *)
Lemma SF64mul_one_l x :
  valid_binary x = true → SF64mul (Prim2SF 1) x = x.
Proof.
  rewrite Prim2SF_one.
  destruct x as [s|s| |s m e]; intros Hv; try reflexivity.
  unfold SF64mul, SFmul.
  change (Pos.mul 4503599627370496 m) with (Pos.iter xO m 52).
  simpl xorb. simpl in Hv. unfold bounded, canonical_mantissa in Hv.
  apply andb_prop in Hv as [Hc He]. apply Z.eqb_eq in Hc.
  unfold binary_round_aux, shr_fexp, Zdigits2.
  rewrite digits2_pos_iter_xO.
  replace (Z.pos (digits2_pos m) + 52 + (-52 + e))%Z
    with (Z.pos (digits2_pos m) + e)%Z by lia.
  rewrite Hc. replace (e - (-52 + e))%Z with 52%Z by lia.
  unfold shr. cbn [shr_record_of_loc].
  change (iter_pos shr_1 52
            {| shr_m := Z.pos (Pos.iter xO m 52); shr_r := false; shr_s := false |})
    with {| shr_m := Z.pos m; shr_r := false; shr_s := false |}.
  cbn [shr_record_of_loc shr_m loc_of_shr_record round_nearest_even].
  replace (-52 + e + 52)%Z with e by lia.
  rewrite Hc, Z.sub_diag. cbn [shr_m]. by rewrite He.
Qed.

Lemma f64_mul_1_l a : 1 * a = a.
Proof.
  apply Prim2SF_inj. rewrite mul_spec. apply SF64mul_one_l, Prim2SF_valid.
Qed.







(** A zero times a finite value is a zero. *)
Lemma f64_zero_mul_finite z b :
  is_zero z = true → is_finite b = true → is_zero (z * b) = true.
Proof.
  rewrite !is_zero_spec, is_finite_spec, mul_spec.
  intros [s ->] [[t ->]|(t & m & e & ->)]; simpl; eauto.
Qed.

(** Adding or subtracting a zero does not change the number. *)
Lemma f64_add_zero a z : is_zero z = true → f64_same (a + z) a.
Proof.
  rewrite is_zero_spec, f64_same_spec, add_spec. intros [s ->].
  destruct (Prim2SF a) as [[]|[]| |]; destruct s; simpl; constructor.
Qed.



End Binary64.

Section Binary64More.

Local Open Scope float_scope.






Lemma is_zero_0 : is_zero 0 = true.
Proof. reflexivity. Qed.

End Binary64More.

(** ** binary64: the order *)

Section Order.

Local Open Scope float_scope.

Lemma SFleb_rank x y :
  SFleb x y = true ↔
  match sf_rank x, sf_rank y with
  | Some r, Some r' => lex_le r r'
  | _, _ => False
  end.
Proof.
  unfold SFleb, lex_le.
  destruct x as [sx|sx| |sx mx ex], y as [sy|sy| |sy my ey];
    try destruct sx; try destruct sy; simpl;
    try (split; [discriminate | lia]);
    try (split; [lia | done]);
    try (split; [discriminate | done]);
    change (PosDef.Pos.compare_cont Eq mx my) with (Pos.compare mx my);
    destruct (Z.compare_spec ex ey), (Pos.compare_spec mx my); simpl;
    (split; [try discriminate; lia | first [done | lia]]).
Qed.


Lemma f64_leb_rank x y :
  (x <=? y) = true ↔
  ∃ r r', sf_rank (Prim2SF x) = Some r ∧ sf_rank (Prim2SF y) = Some r' ∧ lex_le r r'.
Proof.
  rewrite leb_spec, SFleb_rank.
  destruct (sf_rank (Prim2SF x)) as [r|], (sf_rank (Prim2SF y)) as [r'|]; split;
    try done; try (intros (? & ? & ? & ? & ?); simplify_eq; done).
  intros H. by exists r, r'.
Qed.




Lemma f64_leb_not_nan x y : (x <=? y) = true → is_nan x = false ∧ is_nan y = false.
Proof.
  rewrite f64_leb_rank. intros (r & r' & H1 & H2 & _).
  split; apply not_true_is_false; rewrite is_nan_spec; intros E;
    rewrite E in *; discriminate.
Qed.

End Order.

(** ** [np.maximum], [np.minimum] and the reductions *)

Section MaxMin.

Local Open Scope float_scope.













End MaxMin.

(** ** The parameter grid *)

Section GridFacts.

Lemma xi_length : length xi = 25.
Proof. reflexivity. Qed.

Lemma theta_length : length theta = 25.
Proof. reflexivity. Qed.

Lemma w_points : w = (λ t, (λ x, Complex x t) <$> xi) <$> theta.
Proof. vm_compute. reflexivity. Qed.

Lemma w_rect : rect 25 25 w.
Proof.
  rewrite w_points. split.
  - by rewrite length_fmap.
  - apply Forall_fmap, Forall_forall. intros t _.
    unfold compose. by rewrite length_fmap.
Qed.

Lemma w_at i j : at2 w i j = grid_point i j.
Proof.
  rewrite w_points. unfold at2, grid_point.
  rewrite list_lookup_fmap. destruct (theta !! i) as [t|]; [|done].
  cbn [fmap option_fmap option_map mbind option_bind].
  rewrite list_lookup_fmap. by destruct (xi !! j).
Qed.

Lemma phase_arg_range k :
  k ∈ py_range 0 n 1 → phase_arg k = Ok (Complex 0 (phase_angle k)).
Proof.
  change (py_range 0 n 1) with [0; 1; 2; 3; 4]%Z.
  rewrite !elem_of_cons, elem_of_nil.
  intros [->|[->|[->|[->|[->|[]]]]]]; vm_compute; reflexivity.
Qed.

End GridFacts.

Section Shapes.
Context {A B C : Type}.

Lemma rect_map2d (f : A → B) r c (a : list (list A)) :
  rect r c a → rect r c (map2d f a).
Proof.
  intros [Hl Hf]. split.
  - unfold map2d. by rewrite length_fmap.
  - unfold map2d. apply Forall_fmap. eapply Forall_impl; [exact Hf|].
    intros row Hr. simpl. by rewrite length_fmap.
Qed.

Lemma rect_zip2d (f : A → B → C) r c (a : list (list A)) (b : list (list B)) :
  rect r c a → rect r c b → rect r c (zip2d f a b).
Proof.
  intros [Hla Hfa] [Hlb Hfb]. split.
  - unfold zip2d. rewrite length_zip_with. lia.
  - unfold zip2d. clear Hla Hlb. revert b Hfb.
    induction Hfa as [|x a Hx Ha IH]; intros [|y b] Hfb; simpl; try constructor.
    + inversion Hfb; subst. rewrite length_zip_with. lia.
    + inversion Hfb; subst. by apply IH.
Qed.

Lemma at2_map2d (f : A → B) (a : list (list A)) i j :
  at2 (map2d f a) i j = f <$> at2 a i j.
Proof.
  unfold at2, map2d. rewrite list_lookup_fmap.
  destruct (a !! i) as [row|]; simpl; [|done]. by rewrite list_lookup_fmap.
Qed.

Lemma at2_zip2d (f : A → B → C) (a : list (list A)) (b : list (list B)) i j :
  at2 (zip2d f a b) i j = x ← at2 a i j; y ← at2 b i j; Some (f x y).
Proof.
  unfold at2, zip2d. rewrite lookup_zip_with.
  destruct (a !! i) as [ra|]; simpl; [|done].
  destruct (b !! i) as [rb|]; simpl.
  - rewrite lookup_zip_with. done.
  - by destruct (ra !! j).
Qed.

End Shapes.

(** ** What a call computes *)

Section Run.
Context (lm : Libm).

Lemma draw_nil wd : draw [] wd = wd.
Proof.
  unfold draw. destruct wd as [? ? ? ? [|[] r]]; simpl; [done|].
  unfold set_figures, add_lines. simpl. by rewrite app_nil_r.
Qed.

Lemma draw_draw l1 l2 wd : draw l2 (draw l1 wd) = draw (l1 ++ l2) wd.
Proof.
  unfold draw. destruct wd as [? ? ? ? [|fig r]]; simpl; [done|].
  unfold set_figures, add_lines. simpl. by rewrite app_assoc.
Qed.

Lemma foldl_draw {A} (f : A → list Line3D) (l : list A) wd :
  foldl (λ wd x, draw (f x) wd) wd l = draw (x ← l; f x) wd.
Proof.
  revert wd. induction l as [|x l IH]; intros wd; simpl.
  - by rewrite draw_nil.
  - by rewrite IH, draw_draw.
Qed.

Lemma bind_singleton {A B} (f : A → B) (l : list A) :
  (x ← l; [f x]) = f <$> l.
Proof. induction l as [|x l IH]; [done|]. cbn. by rewrite IH. Qed.

Lemma py_for_run {A S} (l : list A) (body : A → S → Py S)
    (g : A → S → S) (h : A → World → World) s wd :
  (∀ x s wd, x ∈ l → body x s wd = (Ok (g x s), h x wd)) →
  py_for l body s wd
  = (Ok (foldl (λ s x, g x s) s l), foldl (λ wd x, h x wd) wd l).
Proof.
  revert s wd. induction l as [|x l IH]; intros s wd Hb; simpl; [done|].
  unfold mbind, py_mbind, py_bind. rewrite Hb by left.
  apply IH. intros y s' wd' Hy. apply Hb. by right.
Qed.

Lemma np_column_ok (a : array2) i c :
  Forall (λ r, length r = c) a → i < c → np_column a i = Ok (column 0%float a i).
Proof.
  intros Ha Hi. unfold np_column, column.
  assert (mapM (λ row : list float, row !! i) a
          = Some ((λ row, default 0%float (row !! i)) <$> a)) as ->; [|done].
  induction Ha as [|r a Hr Ha IH]; [done|].
  destruct (lookup_lt_is_Some_2 r i) as [x Hx]; [lia|].
  cbn. rewrite Hx. cbn. rewrite IH. cbn. done.
Qed.

Lemma np_row_ok (a : array2) i :
  i < length a → np_row a i = Ok (default [] (a !! i)).
Proof.
  intros Hi. unfold np_row.
  destruct (lookup_lt_is_Some_2 a i Hi) as [r ->]. done.
Qed.

Lemma plot_columns_run X Y Z wd :
  rect 25 25 X → rect 25 25 Y → rect 25 25 Z →
  plot_columns X Y Z wd = (Ok (), draw (column_lines X Y Z) wd).
Proof.
  intros [_ HX] [_ HY] [_ HZ]. unfold plot_columns.
  rewrite (py_for_run _ _ (λ _ u, u)
    (λ i, draw [{| line_x := column 0%float X i; line_y := column 0%float Y i;
                   line_z := column 0%float Z i |}])).
  - rewrite foldl_draw. destruct (foldl _ () _).
    unfold column_lines. by rewrite bind_singleton.
  - intros i [] wd' Hi. apply elem_of_seq in Hi. rewrite xi_length in Hi.
    unfold mbind, py_mbind, py_bind, py_lift.
    rewrite !(np_column_ok _ _ 25) by (done || lia). done.
Qed.

Lemma plot_rows_run X Y Z wd :
  rect 25 25 X → rect 25 25 Y → rect 25 25 Z →
  plot_rows X Y Z wd = (Ok (), draw (row_lines X Y Z) wd).
Proof.
  intros [HX _] [HY _] [HZ _]. unfold plot_rows.
  rewrite (py_for_run _ _ (λ _ u, u)
    (λ i, draw [{| line_x := default [] (X !! i); line_y := default [] (Y !! i);
                   line_z := default [] (Z !! i) |}])).
  - rewrite foldl_draw. destruct (foldl _ () _).
    unfold row_lines. by rewrite bind_singleton.
  - intros i [] wd' Hi. apply elem_of_seq in Hi. rewrite theta_length in Hi.
    unfold mbind, py_mbind, py_bind, py_lift.
    rewrite !np_row_ok by lia. done.
Qed.

End Run.

Section Run2.
Context (lm : Libm).

Lemma sheet_X_rect k : rect 25 25 (sheet_X lm k).
Proof. apply rect_map2d, rect_map2d, w_rect. Qed.

Lemma sheet_Y_rect k : rect 25 25 (sheet_Y lm k).
Proof. apply rect_map2d, rect_map2d, w_rect. Qed.

Lemma sheet_Z_rect alpha k1 k2 : rect 25 25 (sheet_Z lm alpha k1 k2).
Proof. apply rect_zip2d; apply rect_map2d, w_rect. Qed.

Lemma phase_range k :
  k ∈ py_range 0 n 1 → phase lm k = Ok (root lm k).
Proof. intros Hk. unfold phase. by rewrite phase_arg_range. Qed.

Lemma sheet_body_run alpha k1 k2 acc wd :
  k1 ∈ py_range 0 n 1 → k2 ∈ py_range 0 n 1 →
  sheet_body lm alpha k1 k2 acc wd
  = (Ok (append_sheet (sheet_X lm k1) (sheet_Y lm k2) (sheet_Z lm alpha k1 k2) acc),
     draw (sheet_lines lm alpha k1 k2) wd).
Proof.
  intros H1 H2. unfold sheet_body, mbind, py_mbind, py_bind, py_lift.
  rewrite !phase_range by done.
  fold (sheet_X lm k1) (sheet_Y lm k2) (sheet_Z lm alpha k1 k2).
  rewrite (plot_columns_run _ _ _ _
             (sheet_X_rect k1) (sheet_Y_rect k2) (sheet_Z_rect alpha k1 k2)).
  rewrite (plot_rows_run _ _ _ _
             (sheet_X_rect k1) (sheet_Y_rect k2) (sheet_Z_rect alpha k1 k2)).
  by rewrite draw_draw.
Qed.

Lemma foldl_append_sheet {A} (fx fy fz : A → array2) (l : list A) acc :
  foldl (λ s p, append_sheet (fx p) (fy p) (fz p) s) acc l
  = {| all_x := all_x acc ++ (fx <$> l); all_y := all_y acc ++ (fy <$> l);
       all_z := all_z acc ++ (fz <$> l) |}.
Proof.
  revert acc. induction l as [|p l IH]; intros [ax ay az]; simpl.
  - by rewrite !app_nil_r.
  - rewrite IH. simpl. by rewrite <- !app_assoc.
Qed.

Lemma foldl_extend_sheets {A} (fx fy fz : A → list array2) (l : list A) acc :
  foldl (λ s k, {| all_x := all_x s ++ fx k; all_y := all_y s ++ fy k;
                   all_z := all_z s ++ fz k |}) acc l
  = {| all_x := all_x acc ++ (k ← l; fx k); all_y := all_y acc ++ (k ← l; fy k);
       all_z := all_z acc ++ (k ← l; fz k) |}.
Proof.
  revert acc. induction l as [|p l IH]; intros [ax ay az]; simpl.
  - by rewrite !app_nil_r.
  - rewrite IH. simpl. by rewrite <- !app_assoc.
Qed.

(** The two nested loops: every pair succeeds, the sheets are appended in
    the order of the pairs and their wireframes are drawn. *)
Lemma loops_run alpha wd :
  py_for (py_range 0 n 1)
    (λ k1 acc, py_for (py_range 0 n 1) (sheet_body lm alpha k1) acc) no_sheets wd
  = (Ok (sheets_of lm alpha), draw (lines_of lm alpha) wd).
Proof.
  rewrite (py_for_run _ _
    (λ k1 s, {| all_x := all_x s ++ ((λ _, sheet_X lm k1) <$> py_range 0 n 1);
                all_y := all_y s ++ (sheet_Y lm <$> py_range 0 n 1);
                all_z := all_z s ++ (sheet_Z lm alpha k1 <$> py_range 0 n 1) |})
    (λ k1, draw (k2 ← py_range 0 n 1; sheet_lines lm alpha k1 k2))).
  - rewrite foldl_draw, foldl_extend_sheets. done.
  - intros k1 s wd' Hk1.
    rewrite (py_for_run _ _
      (λ k2, append_sheet (sheet_X lm k1) (sheet_Y lm k2) (sheet_Z lm alpha k1 k2))
      (λ k2, draw (sheet_lines lm alpha k1 k2))).
    + by rewrite foldl_draw, foldl_append_sheet.
    + intros k2 s' wd'' Hk2. by apply sheet_body_run.
Qed.

(** A successful call, step by step. *)
Lemma plot_calabi_yau_ok elev azim alpha_deg wd t_alpha t_azim t_elev alpha e a p :
  py_format_f alpha_deg = Ok t_alpha →
  py_format_f azim = Ok t_azim →
  py_format_f elev = Ok t_elev →
  np_radians alpha_deg = Ok alpha →
  py_int elev = Ok e → py_int azim = Ok a → py_int alpha_deg = Ok p →
  w_images_dir wd = true →
  plot_calabi_yau lm elev azim alpha_deg wd
  = (Ok (locals_of lm alpha e a p),
     world_after wd elev azim alpha_deg (filename_of e a p)
       (figure_of lm elev azim t_alpha t_azim t_elev alpha)).
Proof.
  intros Hta Htz Hte Hal He Ha Hp Hdir.
  unfold plot_calabi_yau, mbind, py_mbind, py_bind, py_lift.
  rewrite Hta, Htz, Hte, Hal. cbn -[py_for py_range n np_max np_min].
  rewrite loops_run. rewrite He, Ha, Hp.
  unfold draw. cbn -[np_max np_min sheets_of lines_of pretty]. rewrite Hdir.
  unfold mret, py_mret, py_ret. cbn -[np_max np_min sheets_of lines_of pretty].
  unfold locals_of, world_after, figure_of, half_range, axis_range, axis_mid, full,
    filename_of, set_figures.
  cbn -[np_max np_min sheets_of lines_of pretty]. rewrite Hdir.
  reflexivity.
Qed.

End Run2.

Lemma Ok_inj {A} (a b : A) : Ok a = Ok b → a = b.
Proof. by intros [= ->]. Qed.

Ltac py_cbn :=
  cbn -[py_for py_range n np_max np_min sheets_of lines_of pretty draw].

Ltac py_unfold :=
  unfold plot_calabi_yau, mbind, py_mbind, py_bind, py_lift, outcome_bind.

Section Run3.
Context (lm : Libm).

(** Whether a call returns or raises, and what it returns. *)
Lemma plot_calabi_yau_outcome elev azim alpha_deg wd :
  (plot_calabi_yau lm elev azim alpha_deg wd).1
  = (_ ← py_format_f alpha_deg; _ ← py_format_f azim; _ ← py_format_f elev;
     alpha ← np_radians alpha_deg;
     e ← py_int elev; a ← py_int azim; p ← py_int alpha_deg;
     if w_images_dir wd then Ok (locals_of lm alpha e a p)
     else Raise FileNotFoundError).
Proof.
  destruct (py_format_f alpha_deg) as [ta|] eqn:Hta; cycle 1.
  { py_unfold. rewrite Hta. reflexivity. }
  destruct (py_format_f azim) as [tz|] eqn:Htz; cycle 1.
  { py_unfold. rewrite Hta, Htz. reflexivity. }
  destruct (py_format_f elev) as [te|] eqn:Hte; cycle 1.
  { py_unfold. rewrite Hta, Htz, Hte. reflexivity. }
  destruct (np_radians alpha_deg) as [alpha|] eqn:Hal; cycle 1.
  { py_unfold. rewrite Hta, Htz, Hte, Hal. reflexivity. }
  destruct (py_int elev) as [e|] eqn:He; cycle 1.
  { py_unfold. rewrite Hta, Htz, Hte, Hal. py_cbn. rewrite loops_run, He.
    reflexivity. }
  destruct (py_int azim) as [a|] eqn:Ha; cycle 1.
  { py_unfold. rewrite Hta, Htz, Hte, Hal. py_cbn. rewrite loops_run, He, Ha.
    reflexivity. }
  destruct (py_int alpha_deg) as [p|] eqn:Hp; cycle 1.
  { py_unfold. rewrite Hta, Htz, Hte, Hal. py_cbn. rewrite loops_run, He, Ha, Hp.
    reflexivity. }
  destruct (w_images_dir wd) eqn:Hdir.
  - rewrite (plot_calabi_yau_ok lm _ _ _ _ ta tz te alpha e a p
               Hta Htz Hte Hal He Ha Hp Hdir).
    reflexivity.
  - py_unfold. rewrite Hta, Htz, Hte, Hal. py_cbn. rewrite loops_run, He, Ha, Hp.
    unfold draw. py_cbn. rewrite Hdir. reflexivity.
Qed.

(** Conversely, a call that returns went through every step. *)
Lemma plot_calabi_yau_inv elev azim alpha_deg wd l wd' :
  plot_calabi_yau lm elev azim alpha_deg wd = (Ok l, wd') →
  ∃ t_alpha t_azim t_elev alpha e a p,
    py_format_f alpha_deg = Ok t_alpha ∧
    py_format_f azim = Ok t_azim ∧
    py_format_f elev = Ok t_elev ∧
    np_radians alpha_deg = Ok alpha ∧
    py_int elev = Ok e ∧ py_int azim = Ok a ∧ py_int alpha_deg = Ok p ∧
    w_images_dir wd = true ∧
    l = locals_of lm alpha e a p ∧
    wd' = world_after wd elev azim alpha_deg (filename_of e a p)
            (figure_of lm elev azim t_alpha t_azim t_elev alpha).
Proof.
  intros H. pose proof (f_equal fst H) as H1. cbn [fst] in H1.
  rewrite plot_calabi_yau_outcome in H1. unfold mbind, outcome_bind in H1.
  destruct (py_format_f alpha_deg) as [ta|] eqn:Hta; [|discriminate H1].
  destruct (py_format_f azim) as [tz|] eqn:Htz; [|discriminate H1].
  destruct (py_format_f elev) as [te|] eqn:Hte; [|discriminate H1].
  destruct (np_radians alpha_deg) as [alpha|] eqn:Hal; [|discriminate H1].
  destruct (py_int elev) as [e|] eqn:He; [|discriminate H1].
  destruct (py_int azim) as [a|] eqn:Ha; [|discriminate H1].
  destruct (py_int alpha_deg) as [p|] eqn:Hp; [|discriminate H1].
  destruct (w_images_dir wd) eqn:Hdir; [|discriminate H1].
  apply Ok_inj in H1.
  rewrite (plot_calabi_yau_ok lm _ _ _ _ ta tz te alpha e a p) in H by done.
  apply pair_equal_spec in H as [_ Hw].
  exists ta, tz, te, alpha, e, a, p. by repeat split.
Qed.

End Run3.

(** ** Coordinates of a grid point *)

Section Index.
Context (lm : Libm).

Lemma pairs_lookup k1 k2 :
  k1 < 5 → k2 < 5 → pairs !! (5 * k1 + k2) = Some (Z.of_nat k1, Z.of_nat k2).
Proof.
  intros H1 H2.
  destruct k1 as [|[|[|[|[|?]]]]]; [..|lia];
    (destruct k2 as [|[|[|[|[|?]]]]]; [..|lia]); reflexivity.
Qed.




Lemma sheet_Z_at alpha k1 k2 i j :
  k1 < 5 → k2 < 5 →
  sheet_at (all_z (sheets_of lm alpha)) k1 k2 i j
  = z_point lm alpha k1 k2 <$> grid_point i j.
Proof.
  intros H1 H2. unfold sheet_at, sheets_of. cbn [all_z].
  rewrite list_lookup_fmap, pairs_lookup by done. cbn [fmap option_fmap option_map mbind option_bind fst snd].
  unfold sheet_Z, project, z1_of, z2_of. rewrite at2_zip2d, !at2_map2d, w_at.
  by destruct (grid_point i j).
Qed.

Lemma grid_point_in_range i j :
  i < 25 → j < 25 →
  ∃ x t, xi !! j = Some x ∧ theta !! i = Some t ∧ grid_point i j = Some (Complex x t).
Proof.
  intros Hi Hj. unfold grid_point.
  destruct (lookup_lt_is_Some_2 xi j) as [x Hx]; [by rewrite xi_length|].
  destruct (lookup_lt_is_Some_2 theta i) as [t Ht]; [by rewrite theta_length|].
  exists x, t. by rewrite Hx, Ht.
Qed.

End Index.

(** ** The sheets and their coordinates *)

(** A call with small [int] arguments in a world where [images/] exists. *)
Lemma plot_calabi_yau_ints lm (e a p : Z) wd :
  is_infinity (f64_of_Z e) = false →
  is_infinity (f64_of_Z a) = false →
  is_infinity (f64_of_Z p) = false →
  (- 2 ^ 63 ≤ p < 2 ^ 64)%Z →
  w_images_dir wd = true →
  plot_calabi_yau lm (PyInt e) (PyInt a) (PyInt p) wd
  = (Ok (locals_of lm (f64_of_Z p * (np_pi / 180)) e a p),
     world_after wd (PyInt e) (PyInt a) (PyInt p) (filename_of e a p)
       (figure_of lm (PyInt e) (PyInt a) (f64_of_Z p) (f64_of_Z a) (f64_of_Z e)
          (f64_of_Z p * (np_pi / 180)))).
Proof.
  intros He Ha Hp Hr Hdir.
  apply plot_calabi_yau_ok; try done.
  - unfold py_format_f, py_float. by rewrite Hp.
  - unfold py_format_f, py_float. by rewrite Ha.
  - unfold py_format_f, py_float. by rewrite He.
  - unfold np_radians.
    destruct (Z.leb_spec (- 2 ^ 63) p); [|lia].
    destruct (Z.ltb_spec p (2 ^ 64)); [|lia]. done.
Qed.


Lemma example_run_45 :
  plot_calabi_yau ref_libm (PyInt 32) (PyInt 45) (PyInt 45) world0
  = (Ok (locals_of ref_libm (45 * (np_pi / 180)) 32 45 45),
     world_after world0 (PyInt 32) (PyInt 45) (PyInt 45) (filename_of 32 45 45)
       (figure_of ref_libm (PyInt 32) (PyInt 45) 45 45 32 (45 * (np_pi / 180)))).
Proof. by apply (plot_calabi_yau_ints ref_libm 32 45 45 world0). Qed.


(** ** The projection at 0 and at 90 degrees *)

Lemma np_radians_0 alpha_deg :
  alpha_deg = PyInt 0 ∨ alpha_deg = PyFloat 0 → np_radians alpha_deg = Ok 0%float.
Proof. intros [->| ->]; reflexivity. Qed.


(** C3.  When [alpha_deg] is 0 (the [int] or the [float]), whatever the
    elevation and the azimuth, the [Z] value of every grid point of every
    sheet is [Im z1]: with [cos 0 = 1] the first product is [Im z1] exactly,
    and with [sin 0 = 0] the second term is a zero, which the sum absorbs.
    The equality is that of binary64 values up to the sign of a zero, and it
    needs [Im z2] to be finite (a zero times an infinity or a NaN is a NaN). *)
Theorem C3_alpha_zero (lm : Libm) elev azim alpha_deg wd l wd' :
  alpha_deg = PyInt 0 ∨ alpha_deg = PyFloat 0 →
  np_cos lm 0 = 1%float →
  np_sin lm 0 = 0%float →
  plot_calabi_yau lm elev azim alpha_deg wd = (Ok l, wd') →
  ∀ k1 k2 i j c, k1 < 5 → k2 < 5 → grid_point i j = Some c →
    is_finite (im (z2_point lm k2 c)) = true →
    ∃ z, sheet_at (all_z (l_sheets l)) k1 k2 i j = Some z ∧
         f64_same z (im (z1_point lm k1 c)).
Proof.
  intros H0 Hcos Hsin Hrun k1 k2 i j c H1 H2 Hg Hfin.
  apply plot_calabi_yau_inv in Hrun
    as (ta & tz & te & alpha & e & a & p & _ & _ & _ & Hal & _ & _ & _ & _ & -> & _).
  rewrite (np_radians_0 _ H0) in Hal. apply Ok_inj in Hal as <-.
  cbn [locals_of l_sheets]. rewrite sheet_Z_at, Hg by done.
  eexists. split; [reflexivity|].
  unfold z_point. rewrite Hcos, Hsin, f64_mul_1_l.
  apply f64_add_zero, f64_zero_mul_finite; [reflexivity | done].
Qed.

Lemma example_run_0 :
  plot_calabi_yau ref_libm (PyInt 32) (PyInt 45) (PyInt 0) world0
  = (Ok (locals_of ref_libm (0 * (np_pi / 180)) 32 45 0),
     world_after world0 (PyInt 32) (PyInt 45) (PyInt 0) (filename_of 32 45 0)
       (figure_of ref_libm (PyInt 32) (PyInt 45) 0 45 32 (0 * (np_pi / 180)))).
Proof. by apply (plot_calabi_yau_ints ref_libm 32 45 0 world0). Qed.

Lemma sample_point_grid : grid_point 3 4 = Some sample_point.
Proof. vm_compute. reflexivity. Qed.

Lemma C3_alpha_zero_witness :
  ∃ z, sheet_at (all_z (l_sheets (locals_of ref_libm (0 * (np_pi / 180)) 32 45 0)))
         1 2 3 4 = Some z ∧
       f64_same z (im (z1_point ref_libm 1 sample_point)).
Proof.
  refine (C3_alpha_zero ref_libm _ _ _ _ _ _ (or_introl eq_refl) _ _ example_run_0
            1 2 3 4 sample_point _ _ sample_point_grid _).
  - vm_compute. reflexivity.
  - vm_compute. reflexivity.
  - lia.
  - lia.
  - vm_compute. reflexivity.
Defined.


Lemma example_run_90 :
  plot_calabi_yau ref_libm (PyInt 32) (PyInt 45) (PyInt 90) world0
  = (Ok (locals_of ref_libm (90 * (np_pi / 180)) 32 45 90),
     world_after world0 (PyInt 32) (PyInt 45) (PyInt 90) (filename_of 32 45 90)
       (figure_of ref_libm (PyInt 32) (PyInt 45) 90 45 32 (90 * (np_pi / 180)))).
Proof. by apply (plot_calabi_yau_ints ref_libm 32 45 90 world0). Qed.



(** ** Sheets as rotations of the base sheet *)

Section Phase.
Context (lm : Libm).








End Phase.



(** ** Determinism and independence *)

(** C6.  Two calls with the same arguments, from any two states of the
    outside world (files, printed output, open figures), that both return,
    have computed identical [X], [Y] and [Z] arrays for every sheet, the same
    bounding cube and file name, and have written the same image. *)
Theorem C6_deterministic (lm : Libm) elev azim alpha_deg wd1 wd2 l1 l2 wd1' wd2' :
  plot_calabi_yau lm elev azim alpha_deg wd1 = (Ok l1, wd1') →
  plot_calabi_yau lm elev azim alpha_deg wd2 = (Ok l2, wd2') →
  all_x (l_sheets l1) = all_x (l_sheets l2) ∧
  all_y (l_sheets l1) = all_y (l_sheets l2) ∧
  all_z (l_sheets l1) = all_z (l_sheets l2) ∧
  l1 = l2 ∧
  w_files wd1' !! l_filename l1 = w_files wd2' !! l_filename l2.
Proof.
  intros H1 H2.
  apply plot_calabi_yau_inv in H1
    as (ta & tz & te & alpha & e & a & p & Hta & Htz & Hte & Hal & He & Ha & Hp & _ & -> & ->).
  apply plot_calabi_yau_inv in H2
    as (ta' & tz' & te' & alpha' & e' & a' & p' & Hta' & Htz' & Hte' & Hal' & He' & Ha' & Hp' & _ & -> & ->).
  rewrite Hta in Hta'. rewrite Htz in Htz'. rewrite Hte in Hte'. rewrite Hal in Hal'.
  rewrite He in He'. rewrite Ha in Ha'. rewrite Hp in Hp'.
  apply Ok_inj in Hta' as <-. apply Ok_inj in Htz' as <-. apply Ok_inj in Hte' as <-.
  apply Ok_inj in Hal' as <-. apply Ok_inj in He' as <-. apply Ok_inj in Ha' as <-.
  apply Ok_inj in Hp' as <-.
  repeat split; try done.
  unfold world_after, locals_of. cbn [w_files l_filename].
  by rewrite !lookup_insert_eq.
Qed.

Lemma example_rerun_45 :
  plot_calabi_yau ref_libm (PyInt 32) (PyInt 45) (PyInt 45)
    (world_after world0 (PyInt 32) (PyInt 45) (PyInt 45) (filename_of 32 45 45)
       (figure_of ref_libm (PyInt 32) (PyInt 45) 45 45 32 (45 * (np_pi / 180))))
  = (Ok (locals_of ref_libm (45 * (np_pi / 180)) 32 45 45),
     world_after
       (world_after world0 (PyInt 32) (PyInt 45) (PyInt 45) (filename_of 32 45 45)
          (figure_of ref_libm (PyInt 32) (PyInt 45) 45 45 32 (45 * (np_pi / 180))))
       (PyInt 32) (PyInt 45) (PyInt 45) (filename_of 32 45 45)
       (figure_of ref_libm (PyInt 32) (PyInt 45) 45 45 32 (45 * (np_pi / 180)))).
Proof. by apply (plot_calabi_yau_ints ref_libm 32 45 45). Qed.

Lemma C6_deterministic_witness :
  all_x (l_sheets (locals_of ref_libm (45 * (np_pi / 180)) 32 45 45))
  = all_x (l_sheets (locals_of ref_libm (45 * (np_pi / 180)) 32 45 45)).
Proof.
  exact (proj1 (C6_deterministic ref_libm _ _ _ _ _ _ _ _ _ example_run_45 example_rerun_45)).
Defined.

(** C9.  Two calls that return, whatever their arguments, have computed the
    same [X] and [Y] arrays: these depend on none of elevation, azimuth and
    alpha.  If the two calls have the same [alpha_deg], whatever their
    elevations and azimuths, they have computed the same [Z] arrays too. *)
Theorem C9_independence (lm : Libm)
    elev azim alpha_deg elev' azim' alpha_deg' wd1 wd2 l1 l2 wd1' wd2' :
  plot_calabi_yau lm elev azim alpha_deg wd1 = (Ok l1, wd1') →
  plot_calabi_yau lm elev' azim' alpha_deg' wd2 = (Ok l2, wd2') →
  all_x (l_sheets l1) = all_x (l_sheets l2) ∧
  all_y (l_sheets l1) = all_y (l_sheets l2) ∧
  (alpha_deg = alpha_deg' → all_z (l_sheets l1) = all_z (l_sheets l2)).
Proof.
  intros H1 H2.
  apply plot_calabi_yau_inv in H1
    as (ta & tz & te & alpha & e & a & p & _ & _ & _ & Hal & _ & _ & _ & _ & -> & _).
  apply plot_calabi_yau_inv in H2
    as (ta' & tz' & te' & alpha' & e' & a' & p' & _ & _ & _ & Hal' & _ & _ & _ & _ & -> & _).
  repeat split; try done.
  intros <-. rewrite Hal in Hal'. by apply Ok_inj in Hal' as <-.
Qed.

Lemma C9_independence_witness :
  all_x (l_sheets (locals_of ref_libm (45 * (np_pi / 180)) 32 45 45))
  = all_x (l_sheets (locals_of ref_libm (90 * (np_pi / 180)) 32 45 90)).
Proof.
  exact (proj1 (C9_independence ref_libm _ _ _ _ _ _ _ _ _ _ _ _ example_run_45 example_run_90)).
Defined.

(** ** The bounding cube *)

Section Pooled.
Context (lm : Libm).




End Pooled.



(** With the reference elementary functions and the default arguments of the
    command line the widths of the three intervals are equal as real
    numbers, not only up to the rounding of their end points. *)
Example limits_cubic_45 :
  run_cubic (plot_calabi_yau ref_libm (PyFloat 32) (PyFloat 45) (PyFloat 45) world0)
  = true.
Proof. vm_compute. reflexivity. Qed.

(** ** [np.linspace] and the grid convention *)

Section Linspace.

Local Open Scope float_scope.

Lemma np_linspace_length start stop num :
  length (np_linspace start stop num) = num.
Proof.
  unfold np_linspace.
  repeat case_match; rewrite ?length_insert, !length_fmap, length_seqZ; lia.
Qed.

Lemma np_linspace_last start stop num :
  (1 < num)%nat → np_linspace start stop num !! (num - 1)%nat = Some stop.
Proof.
  intros Hn. unfold np_linspace. cbv zeta.
  destruct (Z.ltb_spec 1 (Z.of_nat num)) as [_|]; [|lia].
  set (y := _ <$> (if (0 <? _)%Z then _ else _)).
  assert (length y = num) as Hy.
  { unfold y. repeat case_match; rewrite !length_fmap, length_seqZ; lia. }
  rewrite Hy. replace (Init.Nat.pred num) with (num - 1)%nat by lia.
  apply list_lookup_insert_eq. lia.
Qed.

Lemma np_linspace_lookup start stop num k :
  (k < num - 1)%nat →
  ((stop - start) / f64_of_Z (Z.of_nat num - 1) =? 0) = false →
  np_linspace start stop num !! k
  = Some (f64_of_Z (Z.of_nat k) * ((stop - start) / f64_of_Z (Z.of_nat num - 1)) + start).
Proof.
  intros Hk Hstep. unfold np_linspace. cbv zeta.
  destruct (Z.ltb_spec 1 (Z.of_nat num)) as [_|]; [|lia].
  destruct (Z.ltb_spec 0 (Z.of_nat num - 1)) as [_|]; [|lia].
  rewrite Hstep, !length_fmap, length_seqZ.
  rewrite list_lookup_insert_ne by lia.
  rewrite !list_lookup_fmap, lookup_seqZ_lt by lia. done.
Qed.

End Linspace.

(** C5.  [xi] has exactly 25 samples, the first -1.0 and the last 1.0, evenly
    spaced: sample [k] is [k * (2 / 24) + -1].  [theta] has exactly 25
    samples, the first 0 and the last [pi / 2], evenly spaced: sample [k] is
    [k * (pi / 2 / 24) + 0].  The grid [w] has 25 rows, and its entry at row
    [i] and column [j] is [xi[j] + i theta[i]]: the row index varies theta,
    the column index varies xi. *)
Theorem C5_parameter_grid :
  (length xi = 25 ∧ xi !! 0 = Some (-1)%float ∧ xi !! 24 = Some 1%float ∧
   ∀ k, k < 24 → xi !! k = Some (f64_of_Z (Z.of_nat k) * ((1 - -1) / 24) + -1)%float) ∧
  (length theta = 25 ∧ theta !! 0 = Some 0%float ∧ theta !! 24 = Some (np_pi / 2)%float ∧
   ∀ k, k < 24 →
     theta !! k = Some (f64_of_Z (Z.of_nat k) * ((np_pi / 2 - 0) / 24) + 0)%float) ∧
  (length w = 25 ∧
   ∀ i j, i < 25 → j < 25 →
     ∃ x t, theta !! i = Some t ∧ xi !! j = Some x ∧ at2 w i j = Some (Complex x t)).
Proof.
  split; [|split].
  - split; [apply np_linspace_length|]. split; [reflexivity|].
    split; [exact (np_linspace_last (-1) 1 25 ltac:(lia))|].
    intros k Hk. apply (np_linspace_lookup (-1) 1 25 k); [lia|reflexivity].
  - split; [apply np_linspace_length|]. split; [reflexivity|].
    split; [exact (np_linspace_last 0 (np_pi / 2) 25 ltac:(lia))|].
    intros k Hk. apply (np_linspace_lookup 0 (np_pi / 2) 25 k); [lia|reflexivity].
  - split; [apply w_rect|]. intros i j Hi Hj.
    destruct (grid_point_in_range i j Hi Hj) as (x & t & Hx & Ht & Hg).
    exists x, t. by rewrite w_at.
Qed.

(** ** The image file *)




(** [int()] truncates toward zero. *)
Example py_int_examples :
  py_int (PyFloat 32.5) = Ok 32%Z ∧ py_int (PyFloat (-45.75)) = Ok (-45)%Z ∧
  py_int (PyFloat 0.5) = Ok 0%Z ∧ py_int (PyFloat (-0.5)) = Ok 0%Z ∧
  py_int (PyFloat 1e20) = Ok 100000000000000000000%Z ∧
  py_int (PyInt 7) = Ok 7%Z ∧
  py_int (PyFloat nan) = Raise ValueError ∧
  py_int (PyFloat infinity) = Raise OverflowError ∧
  filename_of 32 (-45) 60 = "images/calabi_yau_elev32_azim-45_alpha60.png".
Proof. repeat split; vm_compute; reflexivity. Qed.

(** ** Batch mode *)

Section Batch.
Context (lm : Libm).

Lemma py_for_run_inv {A S} (I : World → Prop) (l : list A) (body : A → S → Py S)
    (g : A → S → S) (h : A → World → World) s wd :
  (∀ x s wd, x ∈ l → I wd → body x s wd = (Ok (g x s), h x wd) ∧ I (h x wd)) →
  I wd →
  py_for l body s wd
  = (Ok (foldl (λ s x, g x s) s l), foldl (λ wd x, h x wd) wd l)
  ∧ I (foldl (λ wd x, h x wd) wd l).
Proof.
  revert s wd. induction l as [|x l IH]; intros s wd Hb HI; simpl; [done|].
  unfold mbind, py_mbind, py_bind.
  destruct (Hb x s wd) as [-> HI']; [by left|done|].
  apply IH; [|done]. intros y s' wd' Hy. apply Hb. by right.
Qed.

Lemma foldl_bind {A B C} (f : A → C → A) (g : B → list C) (l : list B) a :
  foldl f a (x ← l; g x) = foldl (λ a x, foldl f a (g x)) a l.
Proof.
  revert a. induction l as [|x l IH]; intros a; [done|].
  cbn. by rewrite foldl_app, IH.
Qed.

Lemma foldl_pointwise {A B} (f g : A → B → A) (l : list B) a :
  (∀ a x, f a x = g a x) → foldl f a l = foldl g a l.
Proof.
  intros Hfg. revert a. induction l as [|x l IH]; intros a; [done|].
  simpl. by rewrite Hfg, IH.
Qed.

Lemma foldl_snoc {A B} (f : A → B) (l : list A) acc :
  foldl (λ s x, s ++ [f x]) acc l = acc ++ (f <$> l).
Proof.
  revert acc. induction l as [|x l IH]; intros acc; simpl.
  - by rewrite app_nil_r.
  - by rewrite IH, <- app_assoc.
Qed.

Lemma batch_values :
  Forall (λ z, is_infinity (f64_of_Z z) = false) (py_range 0 360 15) ∧
  Forall (λ z, is_infinity (f64_of_Z z) = false ∧ (- 2 ^ 63 ≤ z < 2 ^ 64)%Z)
    (py_range 0 120 30).
Proof.
  split.
  - change (py_range 0 360 15) with ((λ i, 15 * i)%Z <$> seqZ 0 24).
    apply Forall_fmap, Forall_forall. intros i Hi.
    apply elem_of_seqZ in Hi. simpl.
    assert (i ∈ seqZ 0 24) as Hi' by (apply elem_of_seqZ; lia).
    clear Hi. vm_compute in Hi'. 
    repeat (apply elem_of_cons in Hi' as [->|Hi']; [reflexivity|]).
    by apply elem_of_nil in Hi'.
  - change (py_range 0 120 30) with [0; 30; 60; 90]%Z.
    repeat constructor; (reflexivity || lia).
Qed.

Lemma batch_call_run azim alpha acc wd :
  azim ∈ py_range 0 360 15 → alpha ∈ py_range 0 120 30 →
  w_images_dir wd = true →
  (l ← plot_calabi_yau lm (PyInt 32) (PyInt azim) (PyInt alpha); mret (acc ++ [l])) wd
  = (Ok (acc ++ [batch_locals lm (azim, alpha)]), batch_call lm wd (azim, alpha))
  ∧ w_images_dir (batch_call lm wd (azim, alpha)) = true.
Proof.
  intros Haz Hal Hdir.
  destruct batch_values as [Hv1 Hv2].
  rewrite Forall_forall in Hv1. rewrite Forall_forall in Hv2.
  destruct (Hv2 _ Hal) as [Hfin Hr].
  unfold mbind, py_mbind, py_bind.
  rewrite (plot_calabi_yau_ints lm 32 azim alpha wd) by (done || by apply Hv1).
  done.
Qed.

Lemma main_all_run args wd :
  args_all args = true → w_images_dir wd = true →
  main lm args wd = (Ok (batch_locals lm <$> batch), foldl (batch_call lm) wd batch).
Proof.
  intros Hall Hdir. unfold main. rewrite Hall.
  refine (eq_trans (proj1 (py_for_run_inv (λ wd, w_images_dir wd = true) _ _
    (λ azim acc, foldl (λ s alpha, s ++ [batch_locals lm (azim, alpha)]) acc (py_range 0 120 30))
    (λ azim wd, foldl (λ wd alpha, batch_call lm wd (azim, alpha)) wd (py_range 0 120 30))
    [] wd _ Hdir)) _).
  - intros azim acc wd' Haz Hdir'.
    apply (py_for_run_inv (λ wd, w_images_dir wd = true) (py_range 0 120 30) _
      (λ alpha s, s ++ [batch_locals lm (azim, alpha)])
      (λ alpha wd, batch_call lm wd (azim, alpha))); [|done].
    intros alpha s wd'' Hal Hdir''. by apply batch_call_run.
  - apply pair_equal_spec. split.
    + apply (f_equal Ok). unfold batch.
      rewrite <- (app_nil_l (batch_locals lm <$> _)), <- foldl_snoc, foldl_bind.
      apply foldl_pointwise. intros s azim. by rewrite foldl_bind.
    + unfold batch. rewrite foldl_bind.
      apply foldl_pointwise. intros wd' azim. by rewrite foldl_bind.
Qed.

End Batch.

Lemma batch_length : length batch = 96.
Proof. reflexivity. Qed.

Lemma batch_elem azim alpha :
  (azim, alpha) ∈ batch ↔ azim ∈ py_range 0 360 15 ∧ alpha ∈ py_range 0 120 30.
Proof.
  unfold batch. rewrite list_elem_of_bind. split.
  - intros (az & H & Haz). apply list_elem_of_bind in H as (al & H & Hal).
    apply list_elem_of_singleton in H. by simplify_eq.
  - intros [Haz Hal]. exists azim. split; [|done].
    apply list_elem_of_bind. exists alpha. split; [|done]. by apply list_elem_of_singleton.
Qed.

Lemma batch_files_NoDup : NoDup (batch_file <$> batch).
Proof. apply (bool_decide_unpack _). vm_compute. exact I. Qed.

Section BatchFacts.
Context (lm : Libm).

Lemma batch_stdout wd l :
  w_stdout (foldl (batch_call lm) wd l)
  = w_stdout wd ++ ((λ c, Generating (PyInt 32) (PyInt c.1) (PyInt c.2)) <$> l).
Proof.
  revert wd. induction l as [|c l IH]; intros wd; simpl.
  - by rewrite app_nil_r.
  - rewrite IH. unfold batch_call, world_after. cbn [w_stdout].
    by rewrite <- app_assoc.
Qed.

Lemma batch_files_other wd l fn :
  fn ∉ batch_file <$> l →
  w_files (foldl (batch_call lm) wd l) !! fn = w_files wd !! fn.
Proof.
  revert wd. induction l as [|c l IH]; intros wd Hfn; [done|].
  simpl. rewrite fmap_cons, not_elem_of_cons in Hfn. destruct Hfn as [Hc Hl].
  rewrite IH by done. unfold batch_call, world_after. cbn [w_files].
  by rewrite lookup_insert_ne.
Qed.

Lemma batch_files_written wd l c :
  NoDup (batch_file <$> l) → c ∈ l →
  w_files (foldl (batch_call lm) wd l) !! batch_file c
  = Some {| png_figure := batch_figure lm c; png_dpi := 100 |}.
Proof.
  revert wd. induction l as [|x l IH]; intros wd Hnd Hc; [by apply elem_of_nil in Hc|].
  rewrite fmap_cons in Hnd. apply NoDup_cons in Hnd as [Hx Hnd].
  simpl. apply elem_of_cons in Hc as [->|Hc].
  - rewrite batch_files_other by done.
    unfold batch_call, world_after. cbn [w_files]. by rewrite lookup_insert_eq.
  - by apply IH.
Qed.

End BatchFacts.

(** C7.  With [--all], in a directory that has [images/], the script returns
    after exactly 96 calls of the generation routine, one for each azimuth in
    [0, 15 .. 345] (24 values) and each alpha in [0, 30, 60, 90], all at
    elevation 32, in the order of the loops.  The 96 file names are pairwise
    distinct, each of them names an image in the final state, and no other
    file is touched. *)
Theorem C7_batch_mode (lm : Libm) (args : Args) (wd : World) :
  args_all args = true → w_images_dir wd = true →
  ∃ ls wd',
    main lm args wd = (Ok ls, wd') ∧
    length ls = 96 ∧
    (∀ azim alpha, (azim, alpha) ∈ batch ↔
       azim ∈ (λ i, 15 * i)%Z <$> seqZ 0 24 ∧ alpha ∈ [0; 30; 60; 90]%Z) ∧
    w_stdout wd'
    = w_stdout wd ++ ((λ c, Generating (PyInt 32) (PyInt c.1) (PyInt c.2)) <$> batch) ∧
    l_filename <$> ls = (λ c, filename_of 32 c.1 c.2) <$> batch ∧
    NoDup (l_filename <$> ls) ∧
    (∀ c, c ∈ batch →
       ∃ png, w_files wd' !! filename_of 32 c.1 c.2 = Some png ∧ png_dpi png = 100%Z) ∧
    (∀ fn, fn ∉ l_filename <$> ls → w_files wd' !! fn = w_files wd !! fn).
Proof.
  intros Hall Hdir. eexists _, _. split; [by apply main_all_run|].
  assert (l_filename <$> (batch_locals lm <$> batch) = batch_file <$> batch) as Hnames.
  { rewrite <- list_fmap_compose. apply list_fmap_ext. intros i c _. reflexivity. }
  split; [rewrite length_fmap; exact batch_length|].
  split; [exact batch_elem|].
  split; [apply batch_stdout|].
  split; [exact Hnames|].
  split; [rewrite Hnames; exact batch_files_NoDup|].
  split.
  - intros c Hc. eexists. split; [|].
    + apply (batch_files_written lm wd batch c batch_files_NoDup Hc).
    + reflexivity.
  - intros fn Hfn. rewrite Hnames in Hfn. by apply batch_files_other.
Qed.

Lemma C7_batch_mode_witness :
  ∃ ls wd',
    main ref_libm {| args_all := true; args_elev := 32; args_azim := 45; args_alpha := 45 |}
      world0 = (Ok ls, wd') ∧
    length ls = 96.
Proof.
  destruct (C7_batch_mode ref_libm
              {| args_all := true; args_elev := 32; args_azim := 45; args_alpha := 45 |}
              world0 eq_refl eq_refl) as (ls & wd' & Hrun & Hlen & _).
  exists ls, wd'. split; assumption.
Defined.

(** * Further properties of the script *)

(** ** Every way a call can end *)

Ltac run_cbn := cbn -[py_for py_range n np_max np_min sheets_of lines_of pretty draw].

Ltac run_late :=
  unfold draw; run_cbn;
  unfold world_raised, figure_of, half_range, axis_range, axis_mid, full, set_figures;
  run_cbn.

Section CallResult.
Context (lm : Libm).

Lemma plot_calabi_yau_run elev azim alpha_deg wd :
  plot_calabi_yau lm elev azim alpha_deg wd = call_result lm elev azim alpha_deg wd.
Proof.
  unfold call_result.
  destruct (py_format_f alpha_deg) as [ta|] eqn:Hta; cycle 1.
  { py_unfold. rewrite Hta. reflexivity. }
  destruct (py_format_f azim) as [tz|] eqn:Htz; cycle 1.
  { py_unfold. rewrite Hta, Htz. reflexivity. }
  destruct (py_format_f elev) as [te|] eqn:Hte; cycle 1.
  { py_unfold. rewrite Hta, Htz, Hte. reflexivity. }
  destruct (np_radians alpha_deg) as [alpha|] eqn:Hal; cycle 1.
  { py_unfold. rewrite Hta, Htz, Hte, Hal. reflexivity. }
  cbn zeta.
  destruct (py_int elev) as [e|] eqn:He; cycle 1.
  { py_unfold. rewrite Hta, Htz, Hte, Hal. run_cbn. rewrite loops_run, He.
    run_late. reflexivity. }
  destruct (py_int azim) as [a|] eqn:Ha; cycle 1.
  { py_unfold. rewrite Hta, Htz, Hte, Hal. run_cbn. rewrite loops_run, He, Ha.
    run_late. reflexivity. }
  destruct (py_int alpha_deg) as [p|] eqn:Hp; cycle 1.
  { py_unfold. rewrite Hta, Htz, Hte, Hal. run_cbn. rewrite loops_run, He, Ha, Hp.
    run_late. reflexivity. }
  destruct (w_images_dir wd) eqn:Hdir.
  - exact (plot_calabi_yau_ok lm _ _ _ _ ta tz te alpha e a p
             Hta Htz Hte Hal He Ha Hp Hdir).
  - py_unfold. rewrite Hta, Htz, Hte, Hal. run_cbn. rewrite loops_run, He, Ha, Hp.
    run_late. rewrite Hdir. run_cbn. rewrite ?Hdir. reflexivity.
Qed.
End CallResult.

(** ** [int] of a [float] *)

Section IntOfFloat.
Local Open Scope float_scope.






End IntOfFloat.

(** ** Calls that raise *)

Section Errors.
Context (lm : Libm).




End Errors.

(** ** Integers as binary64 values *)

Section RoundTrip.
Local Open Scope Z_scope.

Lemma digits2_pos_lower m : 2 ^ (Zpos (digits2_pos m) - 1) ≤ Zpos m.
Proof.
  induction m as [m IH|m IH|]; cbn [digits2_pos]; [| |done].
  - rewrite Pos2Z.inj_succ.
    replace (Z.succ (Z.pos (digits2_pos m)) - 1) with (Z.succ (Z.pos (digits2_pos m) - 1))
      by lia.
    rewrite Z.pow_succ_r by lia. lia.
  - rewrite Pos2Z.inj_succ.
    replace (Z.succ (Z.pos (digits2_pos m)) - 1) with (Z.succ (Z.pos (digits2_pos m) - 1))
      by lia.
    rewrite Z.pow_succ_r by lia. lia.
Qed.

Lemma digits2_pos_small m : Zpos m < 2 ^ 53 → Zpos (digits2_pos m) ≤ 53.
Proof.
  intros Hm. pose proof (digits2_pos_lower m) as Hl.
  destruct (Z.le_gt_cases (Zpos (digits2_pos m)) 53) as [?|Hgt]; [done|].
  assert (2 ^ 53 ≤ 2 ^ (Zpos (digits2_pos m) - 1)) by (apply Z.pow_le_mono_r; lia).
  lia.
Qed.

Lemma iter_xO_pow m k : Zpos (Pos.iter xO m k) = Zpos m * 2 ^ Zpos k.
Proof.
  induction k as [|k IH] using Pos.peano_ind.
  - cbn [Pos.iter]. lia.
  - rewrite Pos.iter_succ, Pos2Z.inj_xO, IH, Pos2Z.inj_succ, Z.pow_succ_r by lia. lia.
Qed.

(** An integer below [2^53] in absolute value is a binary64 value: the
    conversion shifts its digits to the top of the mantissa and rounds
    nothing. *)
Lemma binary_round_small s m :
  Zpos m < 2 ^ 53 →
  ∃ mz ez,
    binary_round prec emax s m 0 = S754_finite s mz ez ∧
    valid_binary (S754_finite s mz ez) = true ∧
    ez ≤ 0 ∧ Zpos mz = Zpos m * 2 ^ (- ez).
Proof.
  intros Hm. pose proof (digits2_pos_small m Hm) as Hd.
  assert (∀ mz ez,
    Zpos (digits2_pos mz) = 53 → -52 ≤ ez ≤ 0 →
    binary_round_aux prec emax s (Zpos mz) ez loc_Exact = S754_finite s mz ez ∧
    valid_binary (S754_finite s mz ez) = true) as Haux.
  { intros mz ez Hdz Hez.
    assert (fexp prec emax (Zpos (digits2_pos mz) + ez) = ez) as Hf.
    { rewrite Hdz. unfold fexp, emin, prec, emax. lia. }
    split.
    - unfold binary_round_aux, shr_fexp, Zdigits2. rewrite Hf, Z.sub_diag.
      cbn [shr shr_record_of_loc shr_m loc_of_shr_record round_nearest_even].
      rewrite Hf, Z.sub_diag. cbn [shr shr_m].
      assert ((ez <=? emax - prec) = true) as ->; [|done].
      apply Z.leb_le. unfold emax, prec. lia.
    - unfold valid_binary. cbn [SpecFloat.valid_binary].
      unfold bounded, canonical_mantissa. rewrite Hf, Z.eqb_refl.
      apply Z.leb_le. unfold emax, prec. lia. }
  unfold binary_round, shl_align.
  assert (fexp prec emax (Zpos (digits2_pos m) + 0) = Zpos (digits2_pos m) - 53) as ->.
  { unfold fexp, emin, prec, emax. lia. }
  destruct (Zpos (digits2_pos m) - 53 - 0) as [|q|k] eqn:E; [|lia|].
  - exists m, 0. destruct (Haux m 0) as [-> ->]; [lia..|].
    split; [done|]. split; [done|]. split; [done|]. cbn. lia.
  - exists (Pos.iter xO m k), (Zpos (digits2_pos m) - 53).
    destruct (Haux (Pos.iter xO m k) (Zpos (digits2_pos m) - 53)) as [-> ->].
    + rewrite digits2_pos_iter_xO. lia.
    + lia.
    + split; [done|]. split; [done|]. split; [lia|].
      rewrite iter_xO_pow. f_equal. f_equal. lia.
Qed.

(** [int(float(n)) = n] for every integer a binary64 value holds exactly. *)
Lemma f64_trunc_of_Z n : - 2 ^ 53 < n < 2 ^ 53 → f64_trunc (f64_of_Z n) = Some n.
Proof.
  intros Hn. unfold f64_of_Z, f64_trunc, binary_normalize.
  destruct n as [|m|m].
  - reflexivity.
  - destruct (binary_round_small false m) as (mz & ez & -> & Hv & Hez & Hmz); [lia|].
    rewrite (Prim2SF_SF2Prim _ Hv).
    destruct ez as [|q|q]; [| lia |].
    + rewrite Z.shiftl_0_r. f_equal. cbn in Hmz. lia.
    + rewrite Z.shiftr_div_pow2, Hmz by lia.
      change (- Z.neg q) with (Z.pos q). rewrite Z.div_mul by lia. done.
  - destruct (binary_round_small true m) as (mz & ez & -> & Hv & Hez & Hmz); [lia|].
    rewrite (Prim2SF_SF2Prim _ Hv).
    destruct ez as [|q|q]; [| lia |].
    + rewrite Z.shiftl_0_r. f_equal. cbn in Hmz. lia.
    + rewrite Z.shiftr_div_pow2, Hmz by lia.
      change (- Z.neg q) with (Z.pos q). rewrite Z.div_mul by lia. done.
Qed.

Lemma f64_of_Z_finite n : - 2 ^ 53 < n < 2 ^ 53 → is_finite (f64_of_Z n) = true.
Proof.
  intros Hn. apply is_finite_spec. unfold f64_of_Z, binary_normalize.
  destruct n as [|m|m].
  - left. by exists false.
  - destruct (binary_round_small false m) as (mz & ez & -> & Hv & _); [lia|].
    right. exists false, mz, ez. by apply Prim2SF_SF2Prim.
  - destruct (binary_round_small true m) as (mz & ez & -> & Hv & _); [lia|].
    right. exists true, mz, ez. by apply Prim2SF_SF2Prim.
Qed.
End RoundTrip.

(** ** The wireframe *)

Section Blocks.
Context {A B : Type}.

(** Where the blocks of a list comprehension fall when they all have the same
    length. *)
Lemma length_bind_uniform (f : A → list B) (l : list A) c :
  (∀ y, y ∈ l → length (f y) = c) → length (l ≫= f) = length l * c.
Proof.
  induction l as [|y l IH]; intros Hc; [done|].
  rewrite bind_cons, length_app, IH, Hc.
  - simpl. lia.
  - by left.
  - intros z Hz. apply Hc. by right.
Qed.

Lemma lookup_bind_uniform (f : A → list B) (l : list A) c i j x :
  (∀ y, y ∈ l → length (f y) = c) → l !! i = Some x → j < c →
  (l ≫= f) !! (c * i + j) = f x !! j.
Proof.
  revert i. induction l as [|y l IH]; intros i Hc Hi Hj; [done|].
  rewrite bind_cons. destruct i as [|i].
  - apply (inj Some) in Hi as ->. rewrite Nat.mul_0_r, Nat.add_0_l.
    apply lookup_app_l. rewrite Hc; [done|by left].
  - cbn [lookup list_lookup] in Hi.
    rewrite lookup_app_r; (rewrite Hc by (by left)); [|lia].
    replace (c * S i + j - c) with (c * i + j) by lia.
    apply IH; [|done..]. intros z Hz. apply Hc. by right.
Qed.
End Blocks.

Section Lines.

Lemma column_lines_length X Y Z : length (column_lines X Y Z) = 25.
Proof. unfold column_lines. by rewrite length_fmap, length_seq, xi_length. Qed.

Lemma row_lines_length X Y Z : length (row_lines X Y Z) = 25.
Proof. unfold row_lines. by rewrite length_fmap, length_seq, theta_length. Qed.

Lemma column_lines_lookup X Y Z i :
  i < 25 →
  column_lines X Y Z !! i
  = Some {| line_x := column 0%float X i; line_y := column 0%float Y i;
            line_z := column 0%float Z i |}.
Proof.
  intros Hi. unfold column_lines.
  by rewrite list_lookup_fmap, lookup_seq_lt by (by rewrite xi_length).
Qed.

Lemma row_lines_lookup X Y Z i :
  i < 25 →
  row_lines X Y Z !! i
  = Some {| line_x := default [] (X !! i); line_y := default [] (Y !! i);
            line_z := default [] (Z !! i) |}.
Proof.
  intros Hi. unfold row_lines.
  by rewrite list_lookup_fmap, lookup_seq_lt by (by rewrite theta_length).
Qed.

Lemma column_lookup (X : array2) i r :
  rect 25 25 X → i < 25 → column 0%float X i !! r = at2 X r i.
Proof.
  intros [_ HX] Hi. unfold column, at2. rewrite list_lookup_fmap.
  destruct (X !! r) as [row|] eqn:Hr; [|done].
  cbn [fmap option_fmap option_map mbind option_bind].
  rewrite Forall_forall in HX.
  destruct (lookup_lt_is_Some_2 row i) as [v Hv].
  { rewrite (HX row); [done|]. by eapply list_elem_of_lookup_2. }
  by rewrite Hv.
Qed.

Lemma column_length (X : array2) i : rect 25 25 X → length (column 0%float X i) = 25.
Proof. intros [HX _]. unfold column. by rewrite length_fmap. Qed.

Lemma row_lookup (X : array2) i r : default [] (X !! i) !! r = at2 X i r.
Proof. unfold at2. by destruct (X !! i). Qed.

Lemma row_length (X : array2) i :
  rect 25 25 X → i < 25 → length (default [] (X !! i)) = 25.
Proof.
  intros [Hl HX] Hi. destruct (lookup_lt_is_Some_2 X i) as [row Hr]; [lia|].
  rewrite Hr. cbn [default]. rewrite Forall_forall in HX. apply HX.
  by eapply list_elem_of_lookup_2.
Qed.

End Lines.

Section Wireframe.
Context (lm : Libm).

Lemma sheet_lines_length alpha k1 k2 : length (sheet_lines lm alpha k1 k2) = 50.
Proof.
  unfold sheet_lines. by rewrite length_app, column_lines_length, row_lines_length.
Qed.

Lemma range_n : py_range 0 n 1 = [0; 1; 2; 3; 4]%Z.
Proof. reflexivity. Qed.

Lemma range_n_lookup k : k < 5 → py_range 0 n 1 !! k = Some (Z.of_nat k).
Proof.
  intros Hk. rewrite range_n.
  destruct k as [|[|[|[|[|?]]]]]; [..|lia]; reflexivity.
Qed.

Lemma lines_of_length alpha : length (lines_of lm alpha) = 1250.
Proof.
  unfold lines_of.
  rewrite (length_bind_uniform _ _ 250).
  - by rewrite range_n.
  - intros k1 _. rewrite (length_bind_uniform _ _ 50).
    + by rewrite range_n.
    + intros k2 _. apply sheet_lines_length.
Qed.

Lemma lines_of_lookup alpha k1 k2 m :
  k1 < 5 → k2 < 5 → m < 50 →
  lines_of lm alpha !! (50 * (5 * k1 + k2) + m)
  = sheet_lines lm alpha (Z.of_nat k1) (Z.of_nat k2) !! m.
Proof.
  intros H1 H2 Hm. unfold lines_of.
  replace (50 * (5 * k1 + k2) + m) with (250 * k1 + (50 * k2 + m)) by lia.
  rewrite (lookup_bind_uniform _ _ 250 k1 _ (Z.of_nat k1)).
  - apply (lookup_bind_uniform _ _ 50 k2 _ (Z.of_nat k2)).
    + intros y _. apply sheet_lines_length.
    + by apply range_n_lookup.
    + done.
  - intros y _. rewrite (length_bind_uniform _ _ 50).
    + by rewrite range_n.
    + intros z _. apply sheet_lines_length.
  - by apply range_n_lookup.
  - lia.
Qed.

Lemma sheets_of_lookup alpha k1 k2 :
  k1 < 5 → k2 < 5 →
  all_x (sheets_of lm alpha) !! (5 * k1 + k2) = Some (sheet_X lm (Z.of_nat k1)) ∧
  all_y (sheets_of lm alpha) !! (5 * k1 + k2) = Some (sheet_Y lm (Z.of_nat k2)) ∧
  all_z (sheets_of lm alpha) !! (5 * k1 + k2)
  = Some (sheet_Z lm alpha (Z.of_nat k1) (Z.of_nat k2)).
Proof.
  intros H1 H2. unfold sheets_of. cbn [all_x all_y all_z].
  by rewrite !list_lookup_fmap, pairs_lookup.
Qed.

Lemma sheet_lines_shape alpha k1 k2 :
  Forall (λ ln, length (line_x ln) = 25 ∧ length (line_y ln) = 25
                ∧ length (line_z ln) = 25)
    (sheet_lines lm alpha k1 k2).
Proof.
  pose proof (sheet_X_rect lm k1) as HX.
  pose proof (sheet_Y_rect lm k2) as HY.
  pose proof (sheet_Z_rect lm alpha k1 k2) as HZ.
  unfold sheet_lines. apply Forall_app. split.
  - unfold column_lines. apply Forall_fmap, Forall_forall. intros i _.
    unfold compose. cbn [line_x line_y line_z].
    by rewrite !column_length.
  - unfold row_lines. apply Forall_fmap, Forall_forall. intros i Hi.
    apply elem_of_seq in Hi. rewrite theta_length in Hi.
    unfold compose. cbn [line_x line_y line_z].
    rewrite !row_length by (done || lia). done.
Qed.

End Wireframe.

(** X4.  The image of a call that returns shows 1250 polylines (25 sheets, 25
    columns and 25 rows each) of 25 points each, with the axes off, the
    equation text and the parameter text (the three arguments as [float]s),
    seen from the elevation and azimuth as they were passed, not truncated,
    and is saved at 100 dpi. *)
Theorem wireframe_shape (lm : Libm) elev azim alpha_deg wd l wd' :
  plot_calabi_yau lm elev azim alpha_deg wd = (Ok l, wd') →
  ∃ png ta tz te,
    w_files wd' !! l_filename l = Some png ∧
    py_format_f alpha_deg = Ok ta ∧ py_format_f azim = Ok tz ∧
    py_format_f elev = Ok te ∧
    length (fig_lines (png_figure png)) = 1250 ∧
    Forall (λ ln, length (line_x ln) = 25 ∧ length (line_y ln) = 25
                  ∧ length (line_z ln) = 25)
      (fig_lines (png_figure png)) ∧
    fig_axis_off (png_figure png) = true ∧
    fig_texts (png_figure png) = [EquationText; ParamText ta tz te] ∧
    fig_view (png_figure png) = Some (elev, azim) ∧
    png_dpi png = 100%Z.
Proof.
  intros Hrun.
  apply plot_calabi_yau_inv in Hrun
    as (ta & tz & te & alpha & e & a & p & Hta & Htz & Hte & _ & _ & _ & _ & _ & -> & ->).
  eexists _, ta, tz, te. unfold world_after, locals_of. cbn [w_files l_filename].
  rewrite lookup_insert_eq. split; [reflexivity|].
  split; [exact Hta|]. split; [exact Htz|]. split; [exact Hte|].
  cbn [png_figure png_dpi]. unfold figure_of.
  cbn [fig_lines fig_axis_off fig_texts fig_view].
  split; [apply lines_of_length|].
  split; [|split; [reflexivity|split; [reflexivity|split; reflexivity]]].
  unfold lines_of. apply Forall_bind, Forall_forall. intros k1 _.
  apply Forall_bind, Forall_forall. intros k2 _. apply sheet_lines_shape.
Qed.

Lemma wireframe_shape_witness :
  ∃ png ta tz te,
    w_files (world_after world0 (PyInt 32) (PyInt 45) (PyInt 45) (filename_of 32 45 45)
               (figure_of ref_libm (PyInt 32) (PyInt 45) 45 45 32 (45 * (np_pi / 180))))
      !! l_filename (locals_of ref_libm (45 * (np_pi / 180)) 32 45 45) = Some png ∧
    py_format_f (PyInt 45) = Ok ta ∧ py_format_f (PyInt 45) = Ok tz ∧
    py_format_f (PyInt 32) = Ok te ∧
    length (fig_lines (png_figure png)) = 1250.
Proof.
  destruct (wireframe_shape ref_libm _ _ _ _ _ _ example_run_45)
    as (png & ta & tz & te & H1 & H2 & H3 & H4 & H5 & _).
  exists png, ta, tz, te. repeat split; assumption.
Defined.

(** X5.  The polylines are the grid lines of the sheets, in the order of the
    loops: for sheet [(k1, k2)], which is number [5 * k1 + k2], line [i] of
    its 50 lines runs down column [i] of its [X], [Y] and [Z] arrays, and
    line [25 + i] runs along row [i]. *)
Theorem wireframe_points (lm : Libm) elev azim alpha_deg wd l wd' :
  plot_calabi_yau lm elev azim alpha_deg wd = (Ok l, wd') →
  ∃ png,
    w_files wd' !! l_filename l = Some png ∧
    ∀ k1 k2 i, k1 < 5 → k2 < 5 → i < 25 →
      ∃ col row,
        fig_lines (png_figure png) !! (50 * (5 * k1 + k2) + i) = Some col ∧
        fig_lines (png_figure png) !! (50 * (5 * k1 + k2) + 25 + i) = Some row ∧
        ∀ r,
          line_x col !! r = sheet_at (all_x (l_sheets l)) k1 k2 r i ∧
          line_y col !! r = sheet_at (all_y (l_sheets l)) k1 k2 r i ∧
          line_z col !! r = sheet_at (all_z (l_sheets l)) k1 k2 r i ∧
          line_x row !! r = sheet_at (all_x (l_sheets l)) k1 k2 i r ∧
          line_y row !! r = sheet_at (all_y (l_sheets l)) k1 k2 i r ∧
          line_z row !! r = sheet_at (all_z (l_sheets l)) k1 k2 i r.
Proof.
  intros Hrun.
  apply plot_calabi_yau_inv in Hrun
    as (ta & tz & te & alpha & e & a & p & _ & _ & _ & _ & _ & _ & _ & _ & -> & ->).
  eexists. unfold world_after, locals_of. cbn [w_files l_filename l_sheets].
  rewrite lookup_insert_eq. split; [reflexivity|].
  cbn [png_figure]. unfold figure_of. cbn [fig_lines].
  intros k1 k2 i H1 H2 Hi.
  destruct (sheets_of_lookup lm alpha k1 k2 H1 H2) as (HX & HY & HZ).
  pose proof (sheet_X_rect lm (Z.of_nat k1)) as RX.
  pose proof (sheet_Y_rect lm (Z.of_nat k2)) as RY.
  pose proof (sheet_Z_rect lm alpha (Z.of_nat k1) (Z.of_nat k2)) as RZ.
  eexists _, _. split; [|split].
  - rewrite lines_of_lookup by (done || lia). unfold sheet_lines.
    rewrite lookup_app_l by (rewrite column_lines_length; lia).
    by apply column_lines_lookup.
  - rewrite <- Nat.add_assoc, lines_of_lookup by (done || lia). unfold sheet_lines.
    rewrite lookup_app_r by (rewrite column_lines_length; lia).
    rewrite column_lines_length.
    replace (25 + i - 25) with i by lia. by apply row_lines_lookup.
  - intros r. cbn [line_x line_y line_z]. unfold sheet_at.
    rewrite HX, HY, HZ. cbn [mbind option_bind].
    rewrite !column_lookup, !row_lookup by done. done.
Qed.

Lemma wireframe_points_witness :
  ∃ png,
    w_files (world_after world0 (PyInt 32) (PyInt 45) (PyInt 45) (filename_of 32 45 45)
               (figure_of ref_libm (PyInt 32) (PyInt 45) 45 45 32 (45 * (np_pi / 180))))
      !! l_filename (locals_of ref_libm (45 * (np_pi / 180)) 32 45 45) = Some png ∧
    ∃ col, fig_lines (png_figure png) !! (50 * (5 * 1 + 2) + 3) = Some col.
Proof.
  destruct (wireframe_points ref_libm _ _ _ _ _ _ example_run_45) as (png & H1 & H).
  exists png. split; [exact H1|].
  destruct (H 1 2 3 ltac:(lia) ltac:(lia) ltac:(lia)) as (col & row & Hc & _).
  exists col. exact Hc.
Defined.

(** X6.  Among the 25 sheets the [X] array depends on [k1] only and the [Y]
    array on [k2] only: sheets with the same [k1] hold the same [X] array,
    sheets with the same [k2] the same [Y] array. *)
Theorem sheets_shared (lm : Libm) elev azim alpha_deg wd l wd' :
  plot_calabi_yau lm elev azim alpha_deg wd = (Ok l, wd') →
  ∀ k1 k2 k, k1 < 5 → k2 < 5 → k < 5 →
    is_Some (all_x (l_sheets l) !! (5 * k1 + k2)) ∧
    all_x (l_sheets l) !! (5 * k1 + k2) = all_x (l_sheets l) !! (5 * k1 + k) ∧
    is_Some (all_y (l_sheets l) !! (5 * k1 + k2)) ∧
    all_y (l_sheets l) !! (5 * k1 + k2) = all_y (l_sheets l) !! (5 * k + k2).
Proof.
  intros Hrun k1 k2 k H1 H2 Hk.
  apply plot_calabi_yau_inv in Hrun
    as (ta & tz & te & alpha & e & a & p & _ & _ & _ & _ & _ & _ & _ & _ & -> & _).
  cbn [locals_of l_sheets].
  destruct (sheets_of_lookup lm alpha k1 k2 H1 H2) as (HX & HY & _).
  destruct (sheets_of_lookup lm alpha k1 k H1 Hk) as (HX' & _ & _).
  destruct (sheets_of_lookup lm alpha k k2 Hk H2) as (_ & HY' & _).
  rewrite HX, HY, HX', HY'. by repeat split.
Qed.

Lemma sheets_shared_witness :
  all_x (l_sheets (locals_of ref_libm (45 * (np_pi / 180)) 32 45 45)) !! (5 * 1 + 2)
  = all_x (l_sheets (locals_of ref_libm (45 * (np_pi / 180)) 32 45 45)) !! (5 * 1 + 4).
Proof.
  exact (proj1 (proj2 (sheets_shared ref_libm _ _ _ _ _ _ example_run_45 1 2 4
                         ltac:(lia) ltac:(lia) ltac:(lia)))).
Defined.

(** X7.  Elevation and azimuth change the camera and nothing else in the
    picture: two calls with the same [alpha_deg] draw the same polylines
    within the same axis limits and box aspect, each seen from its own
    elevation and azimuth. *)
Theorem camera_only (lm : Libm) elev azim elev' azim' alpha_deg wd1 wd2 l1 l2 wd1' wd2' :
  plot_calabi_yau lm elev azim alpha_deg wd1 = (Ok l1, wd1') →
  plot_calabi_yau lm elev' azim' alpha_deg wd2 = (Ok l2, wd2') →
  ∃ png1 png2,
    w_files wd1' !! l_filename l1 = Some png1 ∧
    w_files wd2' !! l_filename l2 = Some png2 ∧
    fig_lines (png_figure png1) = fig_lines (png_figure png2) ∧
    fig_xlim (png_figure png1) = fig_xlim (png_figure png2) ∧
    fig_ylim (png_figure png1) = fig_ylim (png_figure png2) ∧
    fig_zlim (png_figure png1) = fig_zlim (png_figure png2) ∧
    fig_box_aspect (png_figure png1) = fig_box_aspect (png_figure png2) ∧
    fig_view (png_figure png1) = Some (elev, azim) ∧
    fig_view (png_figure png2) = Some (elev', azim').
Proof.
  intros H1 H2.
  apply plot_calabi_yau_inv in H1
    as (ta & tz & te & alpha & e & a & p & _ & _ & _ & Hal & _ & _ & _ & _ & -> & ->).
  apply plot_calabi_yau_inv in H2
    as (ta' & tz' & te' & alpha' & e' & a' & p' & _ & _ & _ & Hal' & _ & _ & _ & _ & -> & ->).
  rewrite Hal in Hal'. apply Ok_inj in Hal' as <-.
  eexists _, _. unfold world_after, locals_of. cbn [w_files l_filename].
  rewrite !lookup_insert_eq. split; [reflexivity|]. split; [reflexivity|].
  cbn [png_figure]. unfold figure_of.
  cbn [fig_lines fig_xlim fig_ylim fig_zlim fig_box_aspect fig_view].
  split; [reflexivity|]. split; [reflexivity|]. split; [reflexivity|].
  split; [reflexivity|]. split; [reflexivity|]. split; reflexivity.
Qed.

(** ** File names and repeated calls *)

Section Names.
Import Stdlib.Strings.Ascii.

(** A string is cut in one way only at the first occurrence of a
    character. *)
Lemma split_at_first c s s' r r' :
  absent c s → absent c s' →
  s +:+ String c r = s' +:+ String c r' → s = s' ∧ r = r'.
Proof.
  revert s'. induction s as [|a s IH]; intros [|a' s']; cbn.
  - intros _ _ H. by injection H.
  - intros _ [Ha _] H. injection H as H _. by destruct Ha.
  - intros [Ha _] _ H. injection H as H _. by destruct Ha.
  - intros [_ Hs] [_ Hs'] H. injection H as -> H.
    destruct (IH s' Hs Hs' H) as [-> ->]. done.
Qed.

Lemma absent_pretty_N_go c x s :
  (∀ d, pretty_N_char d ≠ c) → absent c s → absent c (pretty_N_go x s).
Proof.
  intros Hc. revert s. induction (N.lt_wf_0 x) as [x _ IH]. intros s Hs.
  destruct (decide (x = 0)%N) as [->|Hx]; [by rewrite pretty_N_go_0|].
  rewrite pretty_N_go_step by lia.
  apply IH; [apply N.div_lt; lia|]. split; [apply Hc|exact Hs].
Qed.

(** The decimal representation of an integer holds digits and [-] only. *)
Lemma absent_pretty_Z c (z : Z) :
  (∀ d, pretty_N_char d ≠ c) → c ≠ "-"%char → absent c (pretty z).
Proof.
  intros Hc Hm. unfold pretty, pretty_Z.
  assert (∀ x, absent c (pretty (N.pos x))) as Hpos.
  { intros x. unfold pretty, pretty_N. rewrite decide_False by done.
    by apply absent_pretty_N_go. }
  destruct z as [|x|x].
  - cbn. split; [|done]. apply (Hc 0%N).
  - apply Hpos.
  - cbn. split; [done|]. apply Hpos.
Qed.

Lemma absent_underscore (z : Z) : absent "_" (pretty z).
Proof.
  apply absent_pretty_Z; [|discriminate].
  intros d. unfold pretty_N_char. repeat case_match; discriminate.
Qed.

Lemma absent_dot (z : Z) : absent "." (pretty z).
Proof.
  apply absent_pretty_Z; [|discriminate].
  intros d. unfold pretty_N_char. repeat case_match; discriminate.
Qed.

(** Different triples of integers give different paths. *)
Lemma filename_of_inj e a p e' a' p' :
  filename_of e a p = filename_of e' a' p' → e = e' ∧ a = a' ∧ p = p'.
Proof.
  unfold filename_of. intros H.
  cbn [String.app] in H. injection H as H.
  apply split_at_first in H as [He H]; [|apply absent_underscore..].
  injection H as H.
  apply split_at_first in H as [Ha H]; [|apply absent_underscore..].
  injection H as H.
  apply split_at_first in H as [Hp _]; [|apply absent_dot..].
  split; [by apply (inj pretty)|]. split; by apply (inj pretty).
Qed.
End Names.

(** X8.  Two calls that return write to the same path exactly when their
    arguments agree after [int()]: arguments that differ in their fractional
    parts only share a file, and different integer triples never do. *)
Theorem same_file_iff (lm : Libm) elev azim alpha_deg elev' azim' alpha_deg'
    wd1 wd2 l1 l2 wd1' wd2' :
  plot_calabi_yau lm elev azim alpha_deg wd1 = (Ok l1, wd1') →
  plot_calabi_yau lm elev' azim' alpha_deg' wd2 = (Ok l2, wd2') →
  l_filename l1 = l_filename l2
  ↔ py_int elev = py_int elev' ∧ py_int azim = py_int azim'
    ∧ py_int alpha_deg = py_int alpha_deg'.
Proof.
  intros H1 H2.
  apply plot_calabi_yau_inv in H1
    as (ta & tz & te & alpha & e & a & p & _ & _ & _ & _ & He & Ha & Hp & _ & -> & _).
  apply plot_calabi_yau_inv in H2
    as (ta' & tz' & te' & alpha' & e' & a' & p' & _ & _ & _ & _ & He' & Ha' & Hp' & _ & -> & _).
  rewrite He, Ha, Hp, He', Ha', Hp'. cbn [locals_of l_filename]. split.
  - intros H. apply filename_of_inj in H as (-> & -> & ->). done.
  - intros (H1 & H2 & H3).
    apply Ok_inj in H1 as ->. apply Ok_inj in H2 as ->. by apply Ok_inj in H3 as ->.
Qed.

(** X9.  When a second call writes to the path of the first, the image of the
    first is lost: the files are those before the two calls with the second
    image at that path, while both progress lines are on standard output. *)
Theorem later_call_replaces (lm : Libm) elev azim alpha_deg elev' azim' alpha_deg'
    wd l1 wd1 l2 wd2 :
  plot_calabi_yau lm elev azim alpha_deg wd = (Ok l1, wd1) →
  plot_calabi_yau lm elev' azim' alpha_deg' wd1 = (Ok l2, wd2) →
  l_filename l1 = l_filename l2 →
  ∃ png,
    w_files wd2 = <[l_filename l2 := png]> (w_files wd) ∧
    fig_view (png_figure png) = Some (elev', azim') ∧
    w_stdout wd2
    = w_stdout wd ++ [Generating elev azim alpha_deg;
                      Generating elev' azim' alpha_deg'].
Proof.
  intros H1 H2.
  apply plot_calabi_yau_inv in H1
    as (ta & tz & te & alpha & e & a & p & _ & _ & _ & _ & _ & _ & _ & _ & -> & ->).
  apply plot_calabi_yau_inv in H2
    as (ta' & tz' & te' & alpha' & e' & a' & p' & _ & _ & _ & _ & _ & _ & _ & _ & -> & ->).
  cbn [locals_of l_filename]. intros ->.
  eexists. unfold world_after. cbn [w_files w_stdout].
  rewrite insert_insert_eq, <- app_assoc. split; [reflexivity|].
  split; reflexivity.
Qed.

(** X10.  A call that has returned can be repeated: the second call returns
    the same values and leaves the files as the first left them; it prints
    its line again and leaves no figure open. *)
Theorem rerun_same_files (lm : Libm) elev azim alpha_deg wd l1 wd1 :
  plot_calabi_yau lm elev azim alpha_deg wd = (Ok l1, wd1) →
  ∃ wd2,
    plot_calabi_yau lm elev azim alpha_deg wd1 = (Ok l1, wd2) ∧
    w_files wd2 = w_files wd1 ∧
    w_figures wd2 = w_figures wd ∧
    w_stdout wd2
    = w_stdout wd ++ [Generating elev azim alpha_deg; Generating elev azim alpha_deg].
Proof.
  intros H1.
  apply plot_calabi_yau_inv in H1
    as (ta & tz & te & alpha & e & a & p & Hta & Htz & Hte & Hal & He & Ha & Hp & Hdir & -> & ->).
  eexists. split.
  - apply (plot_calabi_yau_ok lm _ _ _ _ ta tz te alpha e a p); assumption.
  - unfold world_after. cbn [w_files w_stdout w_figures].
    rewrite insert_insert_eq, <- app_assoc. split; [reflexivity|].
    split; reflexivity.
Qed.

(** X11.  Two calls that write to different paths can be made in either
    order: the files at the end are the same, and so is what each call has
    computed. *)
Theorem calls_commute (lm : Libm) e1 a1 p1 e2 a2 p2 wd l1 l2 l1' l2' wd1 wd12 wd2 wd21 :
  plot_calabi_yau lm e1 a1 p1 wd = (Ok l1, wd1) →
  plot_calabi_yau lm e2 a2 p2 wd1 = (Ok l2, wd12) →
  plot_calabi_yau lm e2 a2 p2 wd = (Ok l2', wd2) →
  plot_calabi_yau lm e1 a1 p1 wd2 = (Ok l1', wd21) →
  l_filename l1 ≠ l_filename l2 →
  w_files wd12 = w_files wd21 ∧ l1 = l1' ∧ l2 = l2'.
Proof.
  intros H1 H2 H3 H4.
  apply plot_calabi_yau_inv in H1
    as (ta & tz & te & alpha & e & a & p & Hta & Htz & Hte & Hal & He & Ha & Hp & _ & -> & ->).
  apply plot_calabi_yau_inv in H2
    as (ta' & tz' & te' & alpha' & e' & a' & p' & Hta' & Htz' & Hte' & Hal' & He' & Ha' & Hp' & _ & -> & ->).
  apply plot_calabi_yau_inv in H3
    as (ta3 & tz3 & te3 & alpha3 & e3 & a3 & p3 & Hta3 & Htz3 & Hte3 & Hal3 & He3 & Ha3 & Hp3 & _ & -> & ->).
  apply plot_calabi_yau_inv in H4
    as (ta4 & tz4 & te4 & alpha4 & e4 & a4 & p4 & Hta4 & Htz4 & Hte4 & Hal4 & He4 & Ha4 & Hp4 & _ & -> & ->).
  rewrite Hta in Hta4. rewrite Htz in Htz4. rewrite Hte in Hte4. rewrite Hal in Hal4.
  rewrite He in He4. rewrite Ha in Ha4. rewrite Hp in Hp4.
  rewrite Hta' in Hta3. rewrite Htz' in Htz3. rewrite Hte' in Hte3. rewrite Hal' in Hal3.
  rewrite He' in He3. rewrite Ha' in Ha3. rewrite Hp' in Hp3.
  apply Ok_inj in Hta4 as <-. apply Ok_inj in Htz4 as <-. apply Ok_inj in Hte4 as <-.
  apply Ok_inj in Hal4 as <-. apply Ok_inj in He4 as <-. apply Ok_inj in Ha4 as <-.
  apply Ok_inj in Hp4 as <-.
  apply Ok_inj in Hta3 as <-. apply Ok_inj in Htz3 as <-. apply Ok_inj in Hte3 as <-.
  apply Ok_inj in Hal3 as <-. apply Ok_inj in He3 as <-. apply Ok_inj in Ha3 as <-.
  apply Ok_inj in Hp3 as <-.
  cbn [locals_of l_filename]. intros Hne.
  split; [|split; reflexivity].
  unfold world_after. cbn [w_files].
  apply insert_insert_ne. congruence.
Qed.

(** ** The [__main__] block *)

Section MainBlock.
Context (lm : Libm).

Lemma py_int_of_Z n : (- 2 ^ 53 < n < 2 ^ 53)%Z → py_int (PyFloat (f64_of_Z n)) = Ok n.
Proof. intros Hn. unfold py_int. by rewrite f64_trunc_of_Z. Qed.

Lemma is_infinity_of_Z n :
  (- 2 ^ 53 < n < 2 ^ 53)%Z → is_infinity (f64_of_Z n) = false.
Proof.
  intros Hn. pose proof (f64_of_Z_finite n Hn) as Hf. unfold is_finite in Hf.
  destruct (is_infinity (f64_of_Z n)); [|done].
  by rewrite orb_true_r in Hf.
Qed.


Lemma py_for_raise {A S} (x : A) r (body : A → S → Py S) s wd e wd' :
  body x s wd = (Raise e, wd') → py_for (x :: r) body s wd = (Raise e, wd').
Proof. intros H. cbn [py_for]. unfold mbind, py_mbind, py_bind. by rewrite H. Qed.

(** A call with small [int] arguments where [images/] is missing. *)
Lemma plot_calabi_yau_no_directory (e a p : Z) wd :
  is_infinity (f64_of_Z e) = false →
  is_infinity (f64_of_Z a) = false →
  is_infinity (f64_of_Z p) = false →
  (- 2 ^ 63 ≤ p < 2 ^ 64)%Z →
  w_images_dir wd = false →
  plot_calabi_yau lm (PyInt e) (PyInt a) (PyInt p) wd
  = (Raise FileNotFoundError,
     world_raised wd (w_stdout wd ++ [Generating (PyInt e) (PyInt a) (PyInt p)])
       (figure_of lm (PyInt e) (PyInt a) (f64_of_Z p) (f64_of_Z a) (f64_of_Z e)
          (f64_of_Z p * (np_pi / 180)))).
Proof.
  intros He Ha Hp Hr Hdir. rewrite plot_calabi_yau_run. unfold call_result.
  unfold py_format_f, py_float, np_radians. rewrite He, Ha, Hp.
  destruct (Z.leb_spec (- 2 ^ 63) p); [|lia].
  destruct (Z.ltb_spec p (2 ^ 64)); [|lia].
  cbn [andb py_int]. by rewrite Hdir.
Qed.

Lemma batch_ranges :
  py_range 0 360 15 = (0 :: py_range 15 360 15)%Z ∧
  py_range 0 120 30 = (0 :: py_range 30 120 30)%Z.
Proof. split; reflexivity. Qed.

(** X13.  With [--all] and no directory [images/], the script stops in its
    first call, for azimuth 0 and alpha 0, with [FileNotFoundError]: one
    line is printed, no file is written, and the figure of that call stays
    open. *)
Theorem batch_stops_at_first_failure (args : Args) (wd : World) :
  args_all args = true → w_images_dir wd = false →
  ∃ wd' fig,
    main lm args wd = (Raise FileNotFoundError, wd') ∧
    w_files wd' = w_files wd ∧
    w_stdout wd' = w_stdout wd ++ [Generating (PyInt 32) (PyInt 0) (PyInt 0)] ∧
    w_figures wd' = fig :: w_figures wd ∧
    fig_view fig = Some (PyInt 32, PyInt 0).
Proof.
  intros Hall Hdir. destruct batch_ranges as [Hr1 Hr2].
  eexists _, _. split.
  { unfold main. rewrite Hall, Hr1. apply py_for_raise.
    rewrite Hr2. apply py_for_raise.
    unfold mbind, py_mbind, py_bind.
    rewrite (plot_calabi_yau_no_directory 32 0 0 wd) by (reflexivity || lia || exact Hdir).
    reflexivity. }
  unfold world_raised. cbn [w_files w_stdout w_figures].
  split; [reflexivity|]. split; [reflexivity|]. split; [reflexivity|].
  reflexivity.
Qed.

(** X14.  Integers below [2^53] in absolute value give the same picture
    whether they are passed as [int]s, as batch mode does, or as [float]s,
    as the command line does: the same values computed, the same path, the
    same polylines, texts and axis limits. *)
Theorem int_and_float_agree (e a p : Z) (wd : World) :
  (- 2 ^ 53 < e < 2 ^ 53)%Z → (- 2 ^ 53 < a < 2 ^ 53)%Z → (- 2 ^ 53 < p < 2 ^ 53)%Z →
  w_images_dir wd = true →
  ∃ l wd1 wd2 png1 png2,
    plot_calabi_yau lm (PyInt e) (PyInt a) (PyInt p) wd = (Ok l, wd1) ∧
    plot_calabi_yau lm (PyFloat (f64_of_Z e)) (PyFloat (f64_of_Z a))
      (PyFloat (f64_of_Z p)) wd = (Ok l, wd2) ∧
    l_filename l = filename_of e a p ∧
    w_files wd1 = <[l_filename l := png1]> (w_files wd) ∧
    w_files wd2 = <[l_filename l := png2]> (w_files wd) ∧
    fig_lines (png_figure png1) = fig_lines (png_figure png2) ∧
    fig_texts (png_figure png1) = fig_texts (png_figure png2) ∧
    fig_xlim (png_figure png1) = fig_xlim (png_figure png2) ∧
    fig_ylim (png_figure png1) = fig_ylim (png_figure png2) ∧
    fig_zlim (png_figure png1) = fig_zlim (png_figure png2).
Proof.
  intros He Ha Hp Hdir.
  eexists _, _, _, _, _. split.
  { apply plot_calabi_yau_ints; try (by apply is_infinity_of_Z); [lia|done]. }
  split.
  { apply (plot_calabi_yau_ok lm _ _ _ _ (f64_of_Z p) (f64_of_Z a) (f64_of_Z e)
             (f64_of_Z p * (np_pi / 180))%float e a p);
      try reflexivity; try (by apply py_int_of_Z). exact Hdir. }
  cbn [locals_of l_filename]. unfold world_after. cbn [w_files png_figure].
  split; [reflexivity|]. split; [reflexivity|]. split; [reflexivity|].
  unfold figure_of. cbn [fig_lines fig_texts fig_xlim fig_ylim fig_zlim].
  split; [reflexivity|]. split; [reflexivity|]. split; [reflexivity|].
  split; reflexivity.
Qed.

End MainBlock.

(** ** The pictures of batch mode *)

Section BatchPictures.
Context (lm : Libm).

Lemma batch_figures wd l : w_figures (foldl (batch_call lm) wd l) = w_figures wd.
Proof.
  revert wd. induction l as [|c l IH]; intros wd; [done|].
  cbn [foldl]. by rewrite IH.
Qed.

Lemma batch_style_kept wd l :
  w_style wd = Some "dark_background" →
  w_style (foldl (batch_call lm) wd l) = Some "dark_background".
Proof.
  revert wd. induction l as [|c l IH]; intros wd H; [done|].
  cbn [foldl]. apply IH. reflexivity.
Qed.

Lemma batch_style wd l :
  l ≠ [] → w_style (foldl (batch_call lm) wd l) = Some "dark_background".
Proof.
  destruct l as [|c l]; [done|]. intros _. cbn [foldl].
  apply batch_style_kept. reflexivity.
Qed.

(** X15.  After batch mode no figure is left open and the [dark_background]
    style is in force.  The image of the combination [(azim, alpha)] is seen
    from elevation 32 and that azimuth, and images of the same alpha show
    the same polylines within the same axis limits: the 96 images hold 4
    different wireframes. *)
Theorem batch_pictures (args : Args) (wd : World) :
  args_all args = true → w_images_dir wd = true →
  ∃ ls wd',
    main lm args wd = (Ok ls, wd') ∧
    w_figures wd' = w_figures wd ∧
    w_style wd' = Some "dark_background" ∧
    ∀ c c', c ∈ batch → c' ∈ batch →
      ∃ png png',
        w_files wd' !! filename_of 32 c.1 c.2 = Some png ∧
        w_files wd' !! filename_of 32 c'.1 c'.2 = Some png' ∧
        fig_view (png_figure png) = Some (PyInt 32, PyInt c.1) ∧
        (c.2 = c'.2 →
         fig_lines (png_figure png) = fig_lines (png_figure png') ∧
         fig_xlim (png_figure png) = fig_xlim (png_figure png') ∧
         fig_ylim (png_figure png) = fig_ylim (png_figure png') ∧
         fig_zlim (png_figure png) = fig_zlim (png_figure png')).
Proof.
  intros Hall Hdir. eexists _, _. split; [by apply main_all_run|].
  split; [apply batch_figures|].
  split; [by apply batch_style|].
  intros c c' Hc Hc'. eexists _, _.
  split; [exact (batch_files_written lm wd batch c batch_files_NoDup Hc)|].
  split; [exact (batch_files_written lm wd batch c' batch_files_NoDup Hc')|].
  cbn [png_figure]. unfold batch_figure, figure_of.
  cbn [fig_view fig_lines fig_xlim fig_ylim fig_zlim].
  split; [reflexivity|]. intros ->. split; [reflexivity|].
  split; [reflexivity|]. split; reflexivity.
Qed.
End BatchPictures.

(** ** Sample runs *)

Lemma example_run_view :
  plot_calabi_yau ref_libm (PyInt 10) (PyInt 200) (PyInt 45) world0
  = (Ok (locals_of ref_libm (45 * (np_pi / 180)) 10 200 45),
     world_after world0 (PyInt 10) (PyInt 200) (PyInt 45) (filename_of 10 200 45)
       (figure_of ref_libm (PyInt 10) (PyInt 200) 45 200 10 (45 * (np_pi / 180)))).
Proof. by apply (plot_calabi_yau_ints ref_libm 10 200 45 world0). Qed.

(** The same call in any directory that has [images/]. *)
Lemma example_run_45_from wd :
  w_images_dir wd = true →
  plot_calabi_yau ref_libm (PyInt 32) (PyInt 45) (PyInt 45) wd
  = (Ok (locals_of ref_libm (45 * (np_pi / 180)) 32 45 45),
     world_after wd (PyInt 32) (PyInt 45) (PyInt 45) (filename_of 32 45 45)
       (figure_of ref_libm (PyInt 32) (PyInt 45) 45 45 32 (45 * (np_pi / 180)))).
Proof. intros Hdir. by apply (plot_calabi_yau_ints ref_libm 32 45 45 wd). Qed.

Lemma example_run_90_from wd :
  w_images_dir wd = true →
  plot_calabi_yau ref_libm (PyInt 32) (PyInt 45) (PyInt 90) wd
  = (Ok (locals_of ref_libm (90 * (np_pi / 180)) 32 45 90),
     world_after wd (PyInt 32) (PyInt 45) (PyInt 90) (filename_of 32 45 90)
       (figure_of ref_libm (PyInt 32) (PyInt 45) 90 45 32 (90 * (np_pi / 180)))).
Proof. intros Hdir. by apply (plot_calabi_yau_ints ref_libm 32 45 90 wd). Qed.

(** Arguments with fractional parts: the path holds their integer parts. *)
Lemma example_run_fractions wd :
  w_images_dir wd = true →
  plot_calabi_yau ref_libm (PyFloat 32.5) (PyFloat 45.25) (PyFloat 45.75) wd
  = (Ok (locals_of ref_libm (45.75 * (np_pi / 180)) 32 45 45),
     world_after wd (PyFloat 32.5) (PyFloat 45.25) (PyFloat 45.75) (filename_of 32 45 45)
       (figure_of ref_libm (PyFloat 32.5) (PyFloat 45.25) 45.75 45.25 32.5
          (45.75 * (np_pi / 180)))).
Proof.
  intros Hdir.
  by apply (plot_calabi_yau_ok ref_libm _ _ _ _ 45.75 45.25 32.5
              (45.75 * (np_pi / 180)) 32 45 45).
Qed.


Lemma example_same_name :
  l_filename (locals_of ref_libm (45 * (np_pi / 180)) 32 45 45)
  = l_filename (locals_of ref_libm (45.75 * (np_pi / 180)) 32 45 45).
Proof. cbn [locals_of l_filename]. reflexivity. Qed.

Lemma example_names_differ : filename_of 32 45 45 ≠ filename_of 32 45 90.
Proof. vm_compute. discriminate. Qed.


Lemma camera_only_witness :
  ∃ png1 png2,
    w_files (world_after world0 (PyInt 32) (PyInt 45) (PyInt 45) (filename_of 32 45 45)
               (figure_of ref_libm (PyInt 32) (PyInt 45) 45 45 32 (45 * (np_pi / 180))))
      !! l_filename (locals_of ref_libm (45 * (np_pi / 180)) 32 45 45) = Some png1 ∧
    w_files (world_after world0 (PyInt 10) (PyInt 200) (PyInt 45) (filename_of 10 200 45)
               (figure_of ref_libm (PyInt 10) (PyInt 200) 45 200 10 (45 * (np_pi / 180))))
      !! l_filename (locals_of ref_libm (45 * (np_pi / 180)) 10 200 45) = Some png2 ∧
    fig_lines (png_figure png1) = fig_lines (png_figure png2).
Proof.
  destruct (camera_only ref_libm _ _ _ _ _ _ _ _ _ _ _ example_run_45 example_run_view)
    as (png1 & png2 & H1 & H2 & H3 & _).
  exists png1, png2. repeat split; assumption.
Defined.

Lemma same_file_iff_witness :
  l_filename (locals_of ref_libm (45 * (np_pi / 180)) 32 45 45)
  = l_filename (locals_of ref_libm (45.75 * (np_pi / 180)) 32 45 45)
  ↔ py_int (PyInt 32) = py_int (PyFloat 32.5)
    ∧ py_int (PyInt 45) = py_int (PyFloat 45.25)
    ∧ py_int (PyInt 45) = py_int (PyFloat 45.75).
Proof.
  exact (same_file_iff ref_libm _ _ _ _ _ _ _ _ _ _ _ _
           example_run_45 (example_run_fractions world0 eq_refl)).
Defined.

Lemma later_call_replaces_witness :
  ∃ png,
    w_files
      (world_after world_45 (PyFloat 32.5) (PyFloat 45.25) (PyFloat 45.75)
         (filename_of 32 45 45)
         (figure_of ref_libm (PyFloat 32.5) (PyFloat 45.25) 45.75 45.25 32.5
            (45.75 * (np_pi / 180))))
    = <[l_filename (locals_of ref_libm (45.75 * (np_pi / 180)) 32 45 45) := png]>
        (w_files world0) ∧
    fig_view (png_figure png) = Some (PyFloat 32.5, PyFloat 45.25).
Proof.
  destruct (later_call_replaces ref_libm _ _ _ _ _ _ _ _ _ _ _
              example_run_45 (example_run_fractions world_45 eq_refl) example_same_name)
    as (png & H1 & H2 & _).
  exists png. split; assumption.
Defined.

Lemma rerun_same_files_witness :
  ∃ wd2,
    plot_calabi_yau ref_libm (PyInt 32) (PyInt 45) (PyInt 45) world_45
    = (Ok (locals_of ref_libm (45 * (np_pi / 180)) 32 45 45), wd2) ∧
    w_files wd2 = w_files world_45.
Proof.
  destruct (rerun_same_files ref_libm _ _ _ _ _ _ example_run_45) as (wd2 & H1 & H2 & _).
  exists wd2. split; assumption.
Defined.

Lemma calls_commute_witness :
  w_files
    (world_after world_45 (PyInt 32) (PyInt 45) (PyInt 90) (filename_of 32 45 90)
       (figure_of ref_libm (PyInt 32) (PyInt 45) 90 45 32 (90 * (np_pi / 180))))
  = w_files
      (world_after world_90 (PyInt 32) (PyInt 45) (PyInt 45) (filename_of 32 45 45)
         (figure_of ref_libm (PyInt 32) (PyInt 45) 45 45 32 (45 * (np_pi / 180)))).
Proof.
  exact (proj1 (calls_commute ref_libm _ _ _ _ _ _ _ _ _ _ _ _ _ _ _
                  (example_run_45_from world0 eq_refl)
                  (example_run_90_from world_45 eq_refl)
                  (example_run_90_from world0 eq_refl)
                  (example_run_45_from world_90 eq_refl)
                  example_names_differ)).
Defined.


Lemma batch_stops_at_first_failure_witness :
  ∃ wd',
    main ref_libm {| args_all := true; args_elev := 32; args_azim := 45;
                     args_alpha := 45 |} world_bare = (Raise FileNotFoundError, wd') ∧
    w_files wd' = w_files world_bare.
Proof.
  destruct (batch_stops_at_first_failure ref_libm
              {| args_all := true; args_elev := 32; args_azim := 45; args_alpha := 45 |}
              world_bare eq_refl eq_refl)
    as (wd' & fig & Hrun & Hfiles & _).
  exists wd'. split; assumption.
Defined.

Lemma int_and_float_agree_witness :
  ∃ l wd1 wd2,
    plot_calabi_yau ref_libm (PyInt 32) (PyInt 45) (PyInt 45) world0 = (Ok l, wd1) ∧
    plot_calabi_yau ref_libm (PyFloat (f64_of_Z 32)) (PyFloat (f64_of_Z 45))
      (PyFloat (f64_of_Z 45)) world0 = (Ok l, wd2) ∧
    l_filename l = filename_of 32 45 45.
Proof.
  destruct (int_and_float_agree ref_libm 32 45 45 world0
              ltac:(lia) ltac:(lia) ltac:(lia) eq_refl)
    as (l & wd1 & wd2 & png1 & png2 & H1 & H2 & H3 & _).
  exists l, wd1, wd2. repeat split; assumption.
Defined.

Lemma batch_pictures_witness :
  ∃ ls wd',
    main ref_libm {| args_all := true; args_elev := 32; args_azim := 45; args_alpha := 45 |}
      world0 = (Ok ls, wd') ∧
    w_figures wd' = w_figures world0.
Proof.
  destruct (batch_pictures ref_libm
              {| args_all := true; args_elev := 32; args_azim := 45; args_alpha := 45 |}
              world0 eq_refl eq_refl) as (ls & wd' & Hrun & Hfig & _).
  exists ls, wd'. split; assumption.
Defined.
